(** * minecraft-ondemand: the CDK application, its configuration and the
      on-demand control loop

    Shallow embedding of
    - [src/unnamed/part_001] and the copy of the same module at the end of
      [src/cdk/lib/ec2-stack.ts] (configuration resolution),
    - [src/unnamed/part_000] (application entrypoint),
    - the [MinecraftStack] class of [src/cdk/lib/ec2-stack.ts] (the two
      [EC2Stack] classes at the top of that file are used by nothing else and
      are left out),
    together with a model of the watchdog state machine, whose code is not
    among the sources. *)

From Stdlib Require Import Ascii.
From stdpp Require Import gmap strings list fin_maps pretty.

Local Open Scope string_scope.

(** * JavaScript values *)

(** A call either returns or throws [new Error(msg)]. *)
Inductive result (A : Type) : Type :=
| Ok (a : A)
| Throw (msg : string).
Arguments Ok {A} a.
Arguments Throw {A} msg.

(** Sequencing: a throw aborts what follows. *)
Global Instance result_bind : MBind result := λ A B k r,
  match r with
  | Ok a => k a
  | Throw msg => Throw msg
  end.

Definition throws {A : Type} (r : result A) : Prop := ∃ msg, r = Throw msg.

(** [process.env.X] is [undefined] ([None]) or a string. *)
Abbreviation Env := (gmap string string).

(** [v || d] for a string default [d]: [v] when it is a non-empty string. *)
Definition or_string (v : option string) (d : string) : string :=
  match v with
  | Some (String c s) => String c s
  | _ => d
  end.

(** [a || b] on booleans: the left operand when it is truthy. *)
Definition or_bool (a b : bool) : bool := if a then a else b.

(** JavaScript numbers are IEEE doubles; the sources never compute with them,
    so a number is kept as the integer literal of the program text or as the
    string it is converted from. *)
Inductive number : Type :=
| NumLit (z : Z)
| ToNumber (s : string).

Inductive str_or_num : Type :=
| IsStr (s : string)
| IsNum (n : number).

(** [v || n] for a numeric literal [n]. *)
Definition or_number (v : option string) (n : Z) : str_or_num :=
  match v with
  | Some (String c s) => IsStr (String c s)
  | _ => IsNum (NumLit n)
  end.

(** Unary [+]. *)
Definition unary_plus (x : str_or_num) : number :=
  match x with
  | IsStr s => ToNumber s
  | IsNum n => n
  end.

(** [`${v}`] for a value that is [undefined] or a string. *)
Definition template (v : option string) : string :=
  match v with
  | Some s => s
  | None => "undefined"
  end.

(** Values produced by [JSON.parse]. *)
#[warnings="-register-all"] Inductive json : Type :=
| JNull
| JBool (b : bool)
| JNumber (n : number)
| JString (s : string)
| JArray (l : list json)
| JObject (kvs : list (string * json)).

(** A JavaScript object used as a record of properties. *)
Abbreviation object := (gmap string json).

Fixpoint indexed {A : Type} (i : nat) (l : list A) : list (string * A) :=
  match l with
  | [] => []
  | x :: l' => (pretty i, x) :: indexed (S i) l'
  end.

Fixpoint chars (s : string) : list json :=
  match s with
  | EmptyString => []
  | String c s' => JString (String c EmptyString) :: chars s'
  end.

(** The own enumerable properties that the spread [...v] copies: the members
    of an object, the elements of an array under their indices, the
    characters of a string under theirs, nothing for the other values. *)
Definition own_props (v : json) : list (string * json) :=
  match v with
  | JObject kvs => kvs
  | JArray l => indexed 0 l
  | JString s => indexed 0 (chars s)
  | _ => []
  end.

(** Copying properties into an object in order: a later one overwrites. *)
Definition assign (kvs : list (string * json)) (o : object) : object :=
  foldl (λ acc kv, <[kv.1 := kv.2]> acc) o kvs.

(** * Configuration *)

Inductive MinecraftEdition : Type := java | bedrock.

Record TwilioConfig : Type := {
  phoneFrom : string;
  phoneTo : string;
  accountId : string;
  authCode : string;
}.

(** [StackConfig] of [./types], whose declaration is not among the sources:
    its fields are those of the object literals of [resolveConfig].  The four
    naming fields exist in [src/unnamed/part_001] only, and are [undefined]
    in the object the other copy builds. *)
Record StackConfig : Type := {
  domainName : string;
  subdomainPart : string;
  serverRegion : string;
  minecraftEdition : MinecraftEdition;
  shutdownMinutes : string;
  startupMinutes : string;
  useFargateSpot : bool;
  taskCpu : number;
  taskMemory : number;
  vpcId : string;
  minecraftImageEnv : object;
  snsEmailAddress : string;
  twilio : TwilioConfig;
  clusterName : option string;
  serviceName : option string;
  serverContainerName : option string;
  ecsVolumeName : option string;
  debug : bool;
}.

Definition json_error : string :=
  "Unable to resolve .env value for MINECRAFT_IMAGE_ENV_VARS_JSON.".

(** [src/unnamed/part_001] *)
Module Config.
Section Imports.
(** [JSON.parse]: [None] when it throws a [SyntaxError]. *)
Variable JSON_parse : string → option json.
(** [stringAsBoolean] of [./util], which is not among the sources. *)
Variable stringAsBoolean : option string → bool.

Definition defaults : list (string * json) := [("EULA", JString "TRUE")].

Definition resolveMinecraftEnvVars (arg : option string) : result object :=
  let json := default "" arg in
  match JSON_parse json with
  | Some v => Ok (assign (own_props v) (assign defaults ∅))
  | None => Throw json_error
  end.

Definition resolveConfig (env : Env) : result StackConfig :=
  let edition :=
    if decide (env !! "MINECRAFT_EDITION" = Some "bedrock")
    then bedrock else java in
  let spot := or_bool (stringAsBoolean (env !! "USE_FARGATE_SPOT")) true in
  imageEnv ← resolveMinecraftEnvVars (env !! "MINECRAFT_IMAGE_ENV_VARS_JSON");
  Ok {|
    domainName := or_string (env !! "DOMAIN_NAME") "";
    subdomainPart := or_string (env !! "SUBDOMAIN_PART") "";
    serverRegion := or_string (env !! "SERVER_REGION") "";
    minecraftEdition := edition;
    shutdownMinutes := or_string (env !! "SHUTDOWN_MINUTES") "30";
    startupMinutes := or_string (env !! "STARTUP_MINUTES") "10";
    useFargateSpot := spot;
    taskCpu := unary_plus (or_number (env !! "TASK_CPU") 8192);
    taskMemory := unary_plus (or_number (env !! "TASK_MEMORY") 2048);
    vpcId := or_string (env !! "VPC_ID") "";
    minecraftImageEnv := imageEnv;
    snsEmailAddress := or_string (env !! "SNS_EMAIL_ADDRESS") "";
    twilio := {|
      phoneFrom := or_string (env !! "TWILIO_PHONE_FROM") "";
      phoneTo := or_string (env !! "TWILIO_PHONE_TO") "";
      accountId := or_string (env !! "TWILIO_ACCOUNT_ID") "";
      authCode := or_string (env !! "TWILIO_AUTH_CODE") "";
    |};
    clusterName :=
      Some (or_string (env !! "CLUSTER_NAME")
              ("minecraft-server-" ++ template (env !! "SUBDOMAINPART")));
    serviceName := Some (or_string (env !! "SERVICE_NAME") "minecraft-server");
    serverContainerName :=
      Some (or_string (env !! "SERVER_CONTAINER_NAME") "minecraft-server");
    ecsVolumeName :=
      Some (or_string (env !! "ECS_VOLUME_NAME")
              ("minecraft-server-" ++ template (env !! "SUBDOMAINPART") ++ "-data"));
    debug := or_bool (stringAsBoolean (env !! "DEBUG")) false;
  |}.
End Imports.
End Config.

(** The copy of the module at the end of [src/cdk/lib/ec2-stack.ts]
    (lines 463-503): no default properties, another CPU default, no naming
    fields. *)
Module ConfigAlt.
Section Imports.
Variable JSON_parse : string → option json.
Variable stringAsBoolean : option string → bool.

Definition resolveMinecraftEnvVars (arg : option string) : result object :=
  let json := default "" arg in
  match JSON_parse json with
  | Some v => Ok (assign (own_props v) ∅)
  | None => Throw json_error
  end.

Definition resolveConfig (env : Env) : result StackConfig :=
  let edition :=
    if decide (env !! "MINECRAFT_EDITION" = Some "bedrock")
    then bedrock else java in
  let spot := or_bool (stringAsBoolean (env !! "USE_FARGATE_SPOT")) true in
  imageEnv ← resolveMinecraftEnvVars (env !! "MINECRAFT_IMAGE_ENV_VARS_JSON");
  Ok {|
    domainName := or_string (env !! "DOMAIN_NAME") "";
    subdomainPart := or_string (env !! "SUBDOMAIN_PART") "";
    serverRegion := or_string (env !! "SERVER_REGION") "";
    minecraftEdition := edition;
    shutdownMinutes := or_string (env !! "SHUTDOWN_MINUTES") "30";
    startupMinutes := or_string (env !! "STARTUP_MINUTES") "10";
    useFargateSpot := spot;
    taskCpu := unary_plus (or_number (env !! "TASK_CPU") 10240);
    taskMemory := unary_plus (or_number (env !! "TASK_MEMORY") 2048);
    vpcId := or_string (env !! "VPC_ID") "";
    minecraftImageEnv := imageEnv;
    snsEmailAddress := or_string (env !! "SNS_EMAIL_ADDRESS") "";
    twilio := {|
      phoneFrom := or_string (env !! "TWILIO_PHONE_FROM") "";
      phoneTo := or_string (env !! "TWILIO_PHONE_TO") "";
      accountId := or_string (env !! "TWILIO_ACCOUNT_ID") "";
      authCode := or_string (env !! "TWILIO_AUTH_CODE") "";
    |};
    clusterName := None;
    serviceName := None;
    serverContainerName := None;
    ecsVolumeName := None;
    debug := or_bool (stringAsBoolean (env !! "DEBUG")) false;
  |}.
End Imports.
End ConfigAlt.

(** * IAM policies *)

Inductive Effect : Type := ALLOW | DENY.

(** One entry of a statement's [conditions]: operator, context key, value. *)
Record Condition : Type := {
  operator : string;
  conditionKey : string;
  conditionValue : string;
}.

Record PolicyStatement : Type := {
  sid : option string;
  effect : Effect;
  actions : list string;
  resources : list string;
  conditions : list Condition;
}.

(** IAM patterns: [*] stands for any run of characters, [?] for one. *)
Fixpoint wildcard (p : string) : string → bool :=
  match p with
  | EmptyString => λ s, if s is EmptyString then true else false
  | String c p' =>
      if Ascii.eqb c "*"%char then
        fix star (s : string) : bool :=
          wildcard p' s || (if s is String _ s' then star s' else false)
      else
        λ s, match s with
             | EmptyString => false
             | String d s' =>
                 (Ascii.eqb c "?"%char || Ascii.eqb c d) && wildcard p' s'
             end
  end.

(** A request made under a role. *)
Record Request : Type := {
  reqAction : string;
  reqResource : string;
  reqContext : list (string * string);
}.

Definition condition_holds (ctx : list (string * string)) (c : Condition) : bool :=
  if String.eqb (operator c) "StringEquals" then
    match list_find (λ kv, kv.1 = conditionKey c) ctx with
    | Some (_, kv) => String.eqb kv.2 (conditionValue c)
    | None => false
    end
  else false.

Definition statement_matches (st : PolicyStatement) (rq : Request) : bool :=
  existsb (λ a, wildcard a (reqAction rq)) (actions st)
  && existsb (λ r, wildcard r (reqResource rq)) (resources st)
  && forallb (condition_holds (reqContext rq)) (conditions st).

Definition is_allow (st : PolicyStatement) : bool :=
  if effect st is ALLOW then true else false.

(** Policy evaluation: some statement allows and no statement denies. *)
Definition statements_allow (sts : list PolicyStatement) (rq : Request) : bool :=
  existsb (λ st, is_allow st && statement_matches st rq) sts
  && negb (existsb (λ st, negb (is_allow st) && statement_matches st rq) sts).

(** * CDK constructs

    A construct refers to another by its construct id.  Attribute values that
    only exist at deployment (ARNs, resource ids, parameter values) are given
    by a function [attr id name]. *)

Inductive Vpc : Type :=
| VpcFromLookup (id : string)
| VpcNew (maxAzs natGateways : nat).

Inductive RemovalPolicy : Type := DESTROY | RETAIN | SNAPSHOT.

Record FileSystem : Type := {
  fs_vpc : string;
  removalPolicy : RemovalPolicy;
  fs_allowDefaultPortFrom : list string;
}.

Record AccessPoint : Type := {
  ap_fileSystem : string;
  ap_path : string;
  posixUser_uid : string;
  posixUser_gid : string;
  createAcl_ownerGid : string;
  createAcl_ownerUid : string;
  createAcl_permissions : string;
}.

Record Policy : Type := {
  statements : list PolicyStatement;
  roles : list string;
}.

Inductive RoleOrigin : Type :=
| AssumedBy (servicePrincipal description : string)
| FromRoleArn (arn : string).

Record Role : Type := {
  origin : RoleOrigin;
  defaultPolicy : list PolicyStatement;
  managedPolicies : list string;
}.

Record Cluster : Type := {
  cl_clusterName : string;
  cl_vpc : string;
  containerInsights : bool;
  enableFargateCapacityProviders : bool;
}.

Record Volume : Type := {
  vol_name : string;
  fileSystemId : string;
  transitEncryption : string;
  accessPointId : string;
  authorization_iam : string;
}.

Record FargateTaskDefinition : Type := {
  taskRole : string;
  memoryLimitMiB : number;
  cpu : number;
  volumes : list Volume;
}.

Inductive Protocol : Type := TCP | UDP.

Inductive Port : Type :=
| PortTcp (n : Z)
| PortUdp (n : Z).

(** What [getMinecraftServerConfig] returns, by the fields the stack reads. *)
Record MinecraftServerConfig : Type := {
  image : string;
  port : number;
  protocol : Protocol;
  ingressRulePort : Port;
}.

Record PortMapping : Type := {
  containerPort : number;
  hostPort : number;
  pm_protocol : Protocol;
}.

Inductive ContainerImage : Type :=
| FromRegistry (name : string)
| FromAsset (dirname relative : string).

Inductive RetentionDays : Type := THREE_DAYS.

Record AwsLogDriver : Type := {
  logRetention : RetentionDays;
  streamPrefix : string;
}.

Record MountPoint : Type := {
  containerPath : string;
  sourceVolume : string;
  readOnly : bool;
}.

Record ContainerDefinition : Type := {
  containerName : string;
  cd_image : ContainerImage;
  portMappings : list PortMapping;
  environment : object;
  essential : bool;
  cd_taskDefinition : string;
  logging : option AwsLogDriver;
  mountPoints : list MountPoint;
}.

Inductive Peer : Type := anyIpv4.

Record IngressRule : Type := {
  rule_peer : Peer;
  rule_port : Port;
  rule_description : option string;
}.

Record SecurityGroup : Type := {
  sg_vpc : string;
  sg_description : string;
  allowAllOutbound : option bool;
  ingressRules : list IngressRule;
}.

Record CapacityProviderStrategy : Type := {
  capacityProvider : string;
  cps_weight : Z;
  cps_base : Z;
}.

Inductive FargatePlatformVersion : Type := LATEST.

Record FargateService : Type := {
  svc_cluster : string;
  capacityProviderStrategies : list CapacityProviderStrategy;
  svc_taskDefinition : string;
  platformVersion : FargatePlatformVersion;
  svc_serviceName : string;
  desiredCount : Z;
  assignPublicIp : bool;
  securityGroups : list string;
}.

Record SSMParameterReader : Type := {
  parameterName : string;
  reader_region : string;
}.

Record Topic : Type := {
  displayName : string;
}.

Inductive SubscriptionProtocol : Type := EMAIL.

Record Subscription : Type := {
  sub_protocol : SubscriptionProtocol;
  sub_topic : string;
  endpoint : string;
}.

Inductive EbsDeviceVolumeType : Type := GP3.

Record BlockDevice : Type := {
  deviceName : string;
  ebs_volumeSize : Z;
  ebs_volumeType : EbsDeviceVolumeType;
}.

Inductive AmazonLinuxGeneration : Type := AMAZON_LINUX_2.

Inductive SubnetType : Type := PUBLIC.

Record Instance : Type := {
  instanceName : string;
  instanceType : string;
  machineImage : AmazonLinuxGeneration;
  inst_role : string;
  inst_vpc : string;
  vpcSubnets : SubnetType;
  inst_securityGroup : string;
  blockDevices : list BlockDevice;
  userData : list string;
  inst_allowFrom : list (string * Port);
}.

Inductive Construct : Type :=
| CVpc (v : Vpc)
| CFileSystem (f : FileSystem)
| CAccessPoint (a : AccessPoint)
| CPolicy (p : Policy)
| CRole (r : Role)
| CCluster (c : Cluster)
| CTaskDefinition (t : FargateTaskDefinition)
| CContainer (c : ContainerDefinition)
| CSecurityGroup (g : SecurityGroup)
| CService (s : FargateService)
| CReader (r : SSMParameterReader)
| CTopic (t : Topic)
| CSubscription (s : Subscription)
| CInstance (i : Instance).

(** The stack under construction: its environment and its children in the
    order they were created. *)
Record Stack : Type := {
  stack_region : string;
  stack_account : option string;
  constructs : list (string * Construct);
}.

(** Constructor code runs against the stack it is building. *)
Definition Build (A : Type) : Type := Stack → A * Stack.

Global Instance build_ret : MRet Build := λ A a st, (a, st).

Global Instance build_bind : MBind Build := λ A B k m st,
  let (a, st') := m st in k a st'.

(** [new C(this, id, props)]: the handle of the new child is its id. *)
Definition create (id : string) (c : Construct) : Build string := λ st,
  (id, {| stack_region := stack_region st;
          stack_account := stack_account st;
          constructs := constructs st ++ [(id, c)] |}).

(** A method call that changes the child [id] in place. *)
Definition update (id : string) (f : Construct → Construct) : Build unit := λ st,
  (tt, {| stack_region := stack_region st;
          stack_account := stack_account st;
          constructs :=
            (λ ic, if String.eqb ic.1 id then (ic.1, f ic.2) else ic)
              <$> constructs st |}).

(** [this.region] *)
Definition this_region : Build string := λ st, (stack_region st, st).

Fixpoint child (id : string) (cs : list (string * Construct)) : option Construct :=
  match cs with
  | [] => None
  | (i, c) :: cs' => if String.eqb i id then Some c else child id cs'
  end.

(** [policy.attachToRole(role)] *)
Definition attachToRole (policy role : string) : Build unit :=
  update policy (λ c,
    match c with
    | CPolicy p =>
        CPolicy {| statements := statements p; roles := roles p ++ [role] |}
    | _ => c
    end).

(** [role.addManagedPolicy(ManagedPolicy.fromAwsManagedPolicyName(name))] *)
Definition addManagedPolicy (role name : string) : Build unit :=
  update role (λ c,
    match c with
    | CRole r =>
        CRole {| origin := origin r;
                 defaultPolicy := defaultPolicy r;
                 managedPolicies := managedPolicies r ++ [name] |}
    | _ => c
    end).

(** [topic.grantPublish(role)]: the role's default policy gains the right to
    publish to the topic. *)
Definition grantPublish (topicArn role : string) : Build unit :=
  update role (λ c,
    match c with
    | CRole r =>
        CRole {| origin := origin r;
                 defaultPolicy :=
                   defaultPolicy r ++
                   [{| sid := None; effect := ALLOW;
                       actions := ["sns:Publish"];
                       resources := [topicArn];
                       conditions := [] |}];
                 managedPolicies := managedPolicies r |}
    | _ => c
    end).

(** [container.addMountPoints(mp)] *)
Definition addMountPoints (container : string) (mp : MountPoint) : Build unit :=
  update container (λ c,
    match c with
    | CContainer d =>
        CContainer {| containerName := containerName d;
                      cd_image := cd_image d;
                      portMappings := portMappings d;
                      environment := environment d;
                      essential := essential d;
                      cd_taskDefinition := cd_taskDefinition d;
                      logging := logging d;
                      mountPoints := mountPoints d ++ [mp] |}
    | _ => c
    end).

(** [group.addIngressRule(peer, port, description)] *)
Definition addIngressRule (group : string) (r : IngressRule) : Build unit :=
  update group (λ c,
    match c with
    | CSecurityGroup g =>
        CSecurityGroup {| sg_vpc := sg_vpc g;
                          sg_description := sg_description g;
                          allowAllOutbound := allowAllOutbound g;
                          ingressRules := ingressRules g ++ [r] |}
    | _ => c
    end).

(** [fileSystem.connections.allowDefaultPortFrom(other)] *)
Definition allowDefaultPortFrom (fs other : string) : Build unit :=
  update fs (λ c,
    match c with
    | CFileSystem f =>
        CFileSystem {| fs_vpc := fs_vpc f;
                       removalPolicy := removalPolicy f;
                       fs_allowDefaultPortFrom :=
                         fs_allowDefaultPortFrom f ++ [other] |}
    | _ => c
    end).

(** [instance.connections.allowFrom(other, port)] *)
Definition allowFrom (inst other : string) (p : Port) : Build unit :=
  update inst (λ c,
    match c with
    | CInstance i =>
        CInstance {| instanceName := instanceName i;
                     instanceType := instanceType i;
                     machineImage := machineImage i;
                     inst_role := inst_role i;
                     inst_vpc := inst_vpc i;
                     vpcSubnets := vpcSubnets i;
                     inst_securityGroup := inst_securityGroup i;
                     blockDevices := blockDevices i;
                     userData := userData i;
                     inst_allowFrom := inst_allowFrom i ++ [(other, p)] |}
    | _ => c
    end).

(** Props of a stack: its environment and the configuration. *)
Record StackProps : Type := {
  env_region : string;
  env_account : option string;
  props_config : StackConfig;
}.

(** [./constants], which is not among the sources: the two constants the
    sources read. *)
Record Constants : Type := {
  DOMAIN_STACK_REGION : string;
  WATCHDOG_SERVER_CONTAINER_NAME : string;
}.

(** Truthiness of a string. *)
Definition nonempty (s : string) : bool :=
  if s is EmptyString then false else true.

(** * The server stack: class [MinecraftStack] of [src/cdk/lib/ec2-stack.ts] *)
Section MinecraftStack.
Variable constants : Constants.
(** [getMinecraftServerConfig] and [isDockerInstalled] of [./util]. *)
Variable getMinecraftServerConfig : MinecraftEdition → MinecraftServerConfig.
Variable isDockerInstalled : bool.
(** Deployment-time attribute values, and [__dirname]. *)
Variable attr : string → string → string.
Variable dirname : string.

(** [new SSMParameterReader(this, id, props).getParameterValue()] *)
Definition readParameter (id : string) (props : SSMParameterReader) : Build string :=
  reader ← create id (CReader props);
  mret (attr reader "Parameter.Value").

(** [Arn.format({service, resource, resourceName, arnFormat:
    SLASH_RESOURCE_NAME}, this)] *)
Definition Arn_format (service resource resourceName : string) : Build string :=
  λ st,
    ("arn:" ++ attr "AWS" "Partition" ++ ":" ++ service ++ ":" ++
     stack_region st ++ ":" ++
     default (attr "AWS" "AccountId") (stack_account st) ++ ":" ++
     resource ++ "/" ++ resourceName, st).

Definition debugLogging (config : StackConfig) (prefix : string) : option AwsLogDriver :=
  if debug config
  then Some {| logRetention := THREE_DAYS; streamPrefix := prefix |}
  else None.

Definition constructor (config : StackConfig) : Build unit :=
  vpc ← create "Vpc"
    (CVpc (if nonempty (vpcId config)
           then VpcFromLookup (vpcId config)
           else VpcNew 3 0));
  fileSystem ← create "FileSystem"
    (CFileSystem {| fs_vpc := vpc; removalPolicy := SNAPSHOT;
                    fs_allowDefaultPortFrom := [] |});
  accessPoint ← create "AccessPoint"
    (CAccessPoint {| ap_fileSystem := fileSystem; ap_path := "/minecraft";
                     posixUser_uid := "1000"; posixUser_gid := "1000";
                     createAcl_ownerGid := "1000"; createAcl_ownerUid := "1000";
                     createAcl_permissions := "0755" |});
  efsReadWriteDataPolicy ← create "DataRWPolicy"
    (CPolicy {| statements :=
                  [{| sid := Some "AllowReadWriteOnEFS"; effect := ALLOW;
                      actions := ["elasticfilesystem:ClientMount";
                                  "elasticfilesystem:ClientWrite";
                                  "elasticfilesystem:DescribeFileSystems"];
                      resources := [attr fileSystem "fileSystemArn"];
                      conditions :=
                        [{| operator := "StringEquals";
                            conditionKey := "elasticfilesystem:AccessPointArn";
                            conditionValue := attr accessPoint "accessPointArn" |}]
                   |}];
                roles := [] |});
  ecsTaskRole ← create "TaskRole"
    (CRole {| origin := AssumedBy "ecs-tasks.amazonaws.com" "Minecraft ECS task role";
              defaultPolicy := []; managedPolicies := [] |});
  attachToRole efsReadWriteDataPolicy ecsTaskRole;;
  cluster ← create "Cluster"
    (CCluster {| cl_clusterName := "minecraft-server-" ++ subdomainPart config;
                 cl_vpc := vpc; containerInsights := true;
                 enableFargateCapacityProviders := true |});
  taskDefinition ← create "TaskDefinition"
    (CTaskDefinition
       {| taskRole := ecsTaskRole;
          memoryLimitMiB := taskMemory config;
          cpu := taskCpu config;
          volumes :=
            [{| vol_name := "minecraft-server-" ++ subdomainPart config ++ "-data";
                fileSystemId := attr fileSystem "fileSystemId";
                transitEncryption := "ENABLED";
                accessPointId := attr accessPoint "accessPointId";
                authorization_iam := "ENABLED" |}] |});
  let minecraftServerConfig := getMinecraftServerConfig (minecraftEdition config) in
  minecraftServerContainer ← create "ServerContainer"
    (CContainer
       {| containerName := "minecraft-server";
          cd_image := FromRegistry (image minecraftServerConfig);
          portMappings :=
            [{| containerPort := port minecraftServerConfig;
                hostPort := port minecraftServerConfig;
                pm_protocol := protocol minecraftServerConfig |}];
          environment := minecraftImageEnv config;
          essential := false;
          cd_taskDefinition := taskDefinition;
          logging := debugLogging config "minecraft-server";
          mountPoints := [] |});
  addMountPoints minecraftServerContainer
    {| containerPath := "/data";
       sourceVolume := "minecraft-server-" ++ subdomainPart config ++ "-data";
       readOnly := false |};;
  serviceSecurityGroup ← create "ServiceSecurityGroup"
    (CSecurityGroup {| sg_vpc := vpc;
                       sg_description := "Security group for Minecraft on-demand";
                       allowAllOutbound := None; ingressRules := [] |});
  addIngressRule serviceSecurityGroup
    {| rule_peer := anyIpv4;
       rule_port := ingressRulePort minecraftServerConfig;
       rule_description := None |};;
  minecraftServerService ← create "FargateService"
    (CService
       {| svc_cluster := cluster;
          capacityProviderStrategies :=
            [{| capacityProvider :=
                  if useFargateSpot config then "FARGATE_SPOT" else "FARGATE";
                cps_weight := 1; cps_base := 1 |}];
          svc_taskDefinition := taskDefinition;
          platformVersion := LATEST;
          svc_serviceName := "minecraft-server";
          desiredCount := 0;
          assignPublicIp := true;
          securityGroups := [serviceSecurityGroup] |});
  allowDefaultPortFrom fileSystem minecraftServerService;;
  hostedZoneId ← readParameter "Route53HostedZoneIdReader"
    {| parameterName := "MinecraftHostedZoneID-" ++ subdomainPart config;
       reader_region := DOMAIN_STACK_REGION constants |};
  snsTopicArn ←
    (if nonempty (snsEmailAddress config) then
       snsTopic ← create "ServerSnsTopic"
         (CTopic {| displayName := "Minecraft Server Notifications" |});
       grantPublish (attr snsTopic "topicArn") ecsTaskRole;;
       emailSubscription ← create "EmailSubscription"
         (CSubscription {| sub_protocol := EMAIL; sub_topic := snsTopic;
                           endpoint := snsEmailAddress config |});
       mret (attr snsTopic "topicArn")
     else mret "");
  watchdogContainer ← create "WatchDogContainer"
    (CContainer
       {| containerName := WATCHDOG_SERVER_CONTAINER_NAME constants;
          cd_image :=
            if isDockerInstalled
            then FromAsset dirname "../../minecraft-ecsfargate-watchdog/"
            else FromRegistry "doctorray/minecraft-ecsfargate-watchdog";
          portMappings := [];
          environment :=
            assign
              [("CLUSTER", JString ("minecraft-server-" ++ subdomainPart config));
               ("SERVICE", JString "minecraft-server");
               ("DNSZONE", JString hostedZoneId);
               ("SERVERNAME",
                JString (subdomainPart config ++ "." ++ domainName config));
               ("SNSTOPIC", JString snsTopicArn);
               ("TWILIOFROM", JString (phoneFrom (twilio config)));
               ("TWILIOTO", JString (phoneTo (twilio config)));
               ("TWILIOAID", JString (accountId (twilio config)));
               ("TWILIOAUTH", JString (authCode (twilio config)));
               ("STARTUPMIN", JString (startupMinutes config));
               ("SHUTDOWNMIN", JString (shutdownMinutes config))]
              ∅;
          essential := true;
          cd_taskDefinition := taskDefinition;
          logging := debugLogging config (WATCHDOG_SERVER_CONTAINER_NAME constants);
          mountPoints := [] |});
  taskArn ← Arn_format "ecs" "task"
    ("minecraft-server-" ++ subdomainPart config ++ "/*");
  serviceControlPolicy ← create "ServiceControlPolicy"
    (CPolicy {| statements :=
                  [{| sid := Some "AllowAllOnServiceAndTask"; effect := ALLOW;
                      actions := ["ecs:*"];
                      resources := [attr minecraftServerService "serviceArn"; taskArn];
                      conditions := [] |};
                   {| sid := None; effect := ALLOW;
                      actions := ["ec2:DescribeNetworkInterfaces"];
                      resources := ["*"];
                      conditions := [] |}];
                roles := [] |});
  attachToRole serviceControlPolicy ecsTaskRole;;
  launcherLambdaRoleArn ← readParameter "launcherLambdaRoleArn"
    {| parameterName := "LauncherLambdaRoleArn-" ++ subdomainPart config;
       reader_region := DOMAIN_STACK_REGION constants |};
  launcherLambdaRole ← create "LauncherLambdaRole"
    (CRole {| origin := FromRoleArn launcherLambdaRoleArn;
              defaultPolicy := []; managedPolicies := [] |});
  attachToRole serviceControlPolicy launcherLambdaRole;;
  iamRoute53Policy ← create "IamRoute53Policy"
    (CPolicy {| statements :=
                  [{| sid := Some "AllowEditRecordSets"; effect := ALLOW;
                      actions := ["route53:GetHostedZone";
                                  "route53:ChangeResourceRecordSets";
                                  "route53:ListResourceRecordSets"];
                      resources := ["arn:aws:route53:::hostedzone/" ++ hostedZoneId];
                      conditions := [] |}];
                roles := [] |});
  attachToRole iamRoute53Policy ecsTaskRole;;
  ec2SecurityGroup ← create "MinecraftServerSecurityGroup"
    (CSecurityGroup {| sg_vpc := vpc;
                       sg_description := "Security group for Minecraft server EC2 instance";
                       allowAllOutbound := Some true; ingressRules := [] |});
  addIngressRule ec2SecurityGroup
    {| rule_peer := anyIpv4; rule_port := PortTcp 22;
       rule_description := Some "Allow SSH access" |};;
  region ← this_region;
  let userData :=
    ["yum install -y amazon-efs-utils";
     "yum install -y nfs-utils";
     "mkdir -p /home/ec2-user/data";
     "echo " ++ String (ascii_of_nat 34) (attr fileSystem "fileSystemId") ++
       ".efs." ++ region ++
       ".amazonaws.com:/ /home/ec2-user/data efs defaults,_netdev 0 0" ++
       String (ascii_of_nat 34) " >> /etc/fstab";
     "mount -a"] in
  ec2Role ← create "EC2Role"
    (CRole {| origin := AssumedBy "ec2.amazonaws.com" "Minecraft EC2 data server role";
              defaultPolicy := []; managedPolicies := [] |});
  addManagedPolicy ec2Role "AmazonS3ReadOnlyAccess";;
  ec2Instance ← create "MinecraftServerInstance"
    (CInstance {| instanceName := subdomainPart config ++ "-data";
                  instanceType := "t2.micro";
                  machineImage := AMAZON_LINUX_2;
                  inst_role := ec2Role;
                  inst_vpc := vpc;
                  vpcSubnets := PUBLIC;
                  inst_securityGroup := ec2SecurityGroup;
                  blockDevices :=
                    [{| deviceName := "/dev/xvda"; ebs_volumeSize := 8;
                        ebs_volumeType := GP3 |}];
                  userData := userData;
                  inst_allowFrom := [] |});
  allowFrom ec2Instance fileSystem (PortTcp 2049);;
  allowDefaultPortFrom fileSystem ec2Instance.

(** [new MinecraftStack(scope, id, props)] *)
Definition MinecraftStack (props : StackProps) : Stack :=
  (constructor (props_config props)
     {| stack_region := env_region props;
        stack_account := env_account props;
        constructs := [] |}).2.

End MinecraftStack.

(** * Reading a synthesized stack *)

Definition fargateService (stk : Stack) (id : string) : option FargateService :=
  match child id (constructs stk) with
  | Some (CService s) => Some s
  | _ => None
  end.

Definition container (stk : Stack) (id : string) : option ContainerDefinition :=
  match child id (constructs stk) with
  | Some (CContainer c) => Some c
  | _ => None
  end.

Definition fargateTaskDefinition (stk : Stack) (id : string) : option FargateTaskDefinition :=
  match child id (constructs stk) with
  | Some (CTaskDefinition t) => Some t
  | _ => None
  end.

(** All subscriptions declared in the stack. *)
Definition subscriptions (stk : Stack) : list Subscription :=
  omap (λ ic, if ic.2 is CSubscription s then Some s else None) (constructs stk).

(** All topics declared in the stack. *)
Definition topics (stk : Stack) : list Topic :=
  omap (λ ic, if ic.2 is CTopic t then Some t else None) (constructs stk).

(** Ids of the roles the stack declares or imports. *)
Definition stack_roles (stk : Stack) : list string :=
  omap (λ ic, if ic.2 is CRole _ then Some ic.1 else None) (constructs stk).

Definition attached (role : string) (p : Policy) : bool :=
  existsb (λ r, String.eqb r role) (roles p).

(** What one child contributes to the statements that apply to [role]: the
    role's own default policy, and a policy of the stack attached to it. *)
Definition applies (role : string) (ic : string * Construct) : list PolicyStatement :=
  match ic.2 with
  | CRole r => if String.eqb ic.1 role then defaultPolicy r else []
  | CPolicy p => if attached role p then statements p else []
  | _ => []
  end.

Definition role_statements (stk : Stack) (role : string) : list PolicyStatement :=
  concat (applies role <$> constructs stk).

(** Whether the stack's declarations let [role] make the request. *)
Definition role_allows (stk : Stack) (role : string) (rq : Request) : bool :=
  statements_allow (role_statements stk role) rq.

(** * The application entrypoint: [src/unnamed/part_000] *)

(** A stack of the application.  The body of [DomainStack] is not among the
    sources: such a stack is kept with its props alone. *)
Record AppStack : Type := {
  app_props : StackProps;
  app_body : option Stack;
}.

Record App : Type := {
  stacks : list (string * AppStack);
  dependencies : list (string * string);
}.

Definition missing_DOMAIN_NAME : string :=
  "Missing required `DOMAIN_NAME` in .env file, please specify domain name".
Definition missing_SUBDOMAIN_PART : string :=
  "Missing required `SUBDOMAIN_PART` in .env file, please specify subdomain name.".
Definition missing_SERVER_REGION : string :=
  "Missing required `SERVER_REGION` in .env file, example: us-east-1.".

(** What [Vpc.fromLookup] of [aws-cdk-lib] throws in a stack whose account is
    not given (message abridged). *)
Definition vpc_lookup_error : string :=
  "Cannot retrieve value from context provider vpc-provider since account/region are not specified at the stack level.".

Section Entrypoint.
(** [resolveConfig] of [../lib/config]. *)
Variable resolveConfig : Env → result StackConfig.
Variable constants : Constants.
Variable getMinecraftServerConfig : MinecraftEdition → MinecraftServerConfig.
Variable isDockerInstalled : bool.
Variable attr : string → string → string.
Variable dirname : string.
(** [new DomainStack(app, id, props)] of [../lib/domain-stack], which is not
    among the sources: it returns or throws. *)
Variable newDomainStack : StackProps → result unit.
(** The error, if any, that the constructs of [aws-cdk-lib] throw on the
    props they are given later in the constructor of [MinecraftStack] (for
    instance on the CPU and memory of the task definition). *)
Variable libraryError : StackProps → option string.

(** [if (c) { throw new Error(msg); }] *)
Definition throw_if (c : bool) (msg : string) : result unit :=
  if c then Throw msg else Ok tt.

(** [stack.addDependency(target)] *)
Definition addDependency (stack target : string) (app : App) : App :=
  {| stacks := stacks app;
     dependencies := dependencies app ++ [(stack, target)] |}.

(** [new S(app, id, props)] for a stack. *)
Definition addStack (id : string) (s : AppStack) (app : App) : App :=
  {| stacks := stacks app ++ [(id, s)];
     dependencies := dependencies app |}.

(** [new MinecraftStack(app, id, props)], with what can stop it: the first
    statement of the constructor looks the VPC up when [vpcId] is set, which
    throws in a stack without an account; the library may reject the props
    later. *)
Definition newMinecraftStack (props : StackProps) : result Stack :=
  throw_if (nonempty (vpcId (props_config props))
            && negb (bool_decide (is_Some (env_account props))))
    vpc_lookup_error;;
  match libraryError props with
  | Some msg => Throw msg
  | None =>
      Ok (MinecraftStack constants getMinecraftServerConfig isDockerInstalled
            attr dirname props)
  end.

(** The three checks of lines 13-23. *)
Definition checks (config : StackConfig) : result unit :=
  throw_if (negb (nonempty (domainName config))) missing_DOMAIN_NAME;;
  throw_if (negb (nonempty (domainName config))) missing_SUBDOMAIN_PART;;
  throw_if (negb (nonempty (domainName config))) missing_SERVER_REGION.

(** Lines 25-47: the two stacks and the dependency between them. *)
Definition assemble (env : Env) (config : StackConfig) : result App :=
  let app := {| stacks := []; dependencies := [] |} in
  let domainProps :=
    {| env_region := DOMAIN_STACK_REGION constants;
       env_account := env !! "CDK_DEFAULT_ACCOUNT";
       props_config := config |} in
  newDomainStack domainProps;;
  let app :=
    addStack "minecraft-domain-stack"
      {| app_props := domainProps; app_body := None |} app in
  let minecraftProps :=
    {| env_region := serverRegion config;
       env_account := env !! "CDK_DEFAULT_ACCOUNT";
       props_config := config |} in
  body ← newMinecraftStack minecraftProps;
  let app :=
    addStack "minecraft-server-stack"
      {| app_props := minecraftProps; app_body := Some body |} app in
  Ok (addDependency "minecraft-server-stack" "minecraft-domain-stack" app).

Definition main (env : Env) : result App :=
  config ← resolveConfig env;
  checks config;;
  assemble env config.

End Entrypoint.

Fixpoint appStack (id : string) (l : list (string * AppStack)) : option AppStack :=
  match l with
  | [] => None
  | (i, s) :: l' => if String.eqb i id then Some s else appStack id l'
  end.

(** The region a stack of the application is deployed in. *)
Definition regionOf (app : App) (id : string) : option string :=
  (λ s, env_region (app_props s)) <$> appStack id (stacks app).

(** Whether every stack [id] depends on is among [deployed]. *)
Definition ready (app : App) (deployed : list string) (id : string) : bool :=
  forallb (λ d, negb (String.eqb d.1 id) || existsb (String.eqb d.2) deployed)
    (dependencies app).

(** Deployment order: in each round the stacks whose dependencies are all
    deployed are deployed, in the order they were declared. *)
Fixpoint deployRounds (app : App) (rounds : nat) (deployed pending : list string) : list string :=
  match rounds with
  | O => deployed
  | S n =>
      let now := filter (λ id, ready app deployed id = true) pending in
      deployRounds app n (deployed ++ now)
        (filter (λ id, ready app deployed id = false) pending)
  end.

Definition deployOrder (app : App) : list string :=
  deployRounds app (length (stacks app)) [] (fst <$> stacks app).

(** * The watchdog state machine *)

Module Watchdog.

(** Modelled from the spec: the watchdog process, packaged by the stack from
    the directory [minecraft-ecsfargate-watchdog], is not among the sources.
    Section 4.3 of the specification gives its four states. *)
Inductive State : Type :=
| WAITING_FOR_PLAYERS
| ACTIVE
| IDLE_COUNTING
| SHUTTING_DOWN.

(** Modelled from the spec: the missing watchdog's poll of the game server,
    which reports a number of connections or fails (server unreachable). *)
Inductive Poll : Type :=
| Connections (n : nat)
| Unreachable.

(** Modelled from the spec: what the missing watchdog asks of its
    collaborators, the orchestration layer ([setDesiredCount]) and the
    notifier (a STOPPING notification). *)
Inductive Command : Type :=
| SetDesiredCount (n : nat)
| NotifyStopping.

(** Modelled from the spec: the configuration the missing watchdog consumes,
    startup grace minutes, shutdown idle minutes, and the retry budget for
    failed polls. *)
Record Settings : Type := {
  startupMin : nat;
  shutdownMin : nat;
  retryBudget : nat;
}.

(** Modelled from the spec: the state of the missing watchdog process, with
    the minutes elapsed since its start, the IdleTimer, the failed polls in a
    row, and the requests issued so far. *)
Record Process : Type := {
  state : State;
  elapsed : nat;
  idleTimer : nat;
  failures : nat;
  issued : list Command;
}.

(** Modelled from the spec: the missing watchdog starts in
    WAITING_FOR_PLAYERS. *)
Definition start : Process :=
  {| state := WAITING_FOR_PLAYERS; elapsed := 0; idleTimer := 0;
     failures := 0; issued := [] |}.

(** Modelled from the spec: how the missing watchdog reads a poll.  A failed
    poll within the retry budget gives no sample; beyond it, it counts as a
    sample of zero connections. *)
Definition sample (cfg : Settings) (w : Process) (p : Poll) : option nat :=
  match p with
  | Connections n => Some n
  | Unreachable => if Nat.ltb (failures w) (retryBudget cfg) then None else Some 0
  end.

(** Modelled from the spec: one poll of the missing watchdog, a poll interval
    of one minute after the previous one.
    - a poll with at least one connection: ACTIVE, IdleTimer reset to zero;
    - a poll with no connection during the grace window: idle shutdown is
      suppressed, nothing changes;
    - a poll with no connection after the grace window: the IdleTimer
      increments; when it reaches the shutdown threshold the watchdog goes to
      SHUTTING_DOWN, asks for a desired count of zero and emits the STOPPING
      notification, otherwise it is IDLE_COUNTING;
    - once SHUTTING_DOWN the process has terminated. *)
Definition step (cfg : Settings) (w : Process) (p : Poll) : Process :=
  match state w with
  | SHUTTING_DOWN => w
  | _ =>
      let now := S (elapsed w) in
      match sample cfg w p with
      | None =>
          {| state := state w; elapsed := now; idleTimer := idleTimer w;
             failures := S (failures w); issued := issued w |}
      | Some (S _) =>
          {| state := ACTIVE; elapsed := now; idleTimer := 0;
             failures := 0; issued := issued w |}
      | Some O =>
          if Nat.ltb now (startupMin cfg) then
            {| state := state w; elapsed := now; idleTimer := idleTimer w;
               failures := 0; issued := issued w |}
          else if Nat.leb (shutdownMin cfg) (S (idleTimer w)) then
            {| state := SHUTTING_DOWN; elapsed := now;
               idleTimer := S (idleTimer w); failures := 0;
               issued := issued w ++ [SetDesiredCount 0; NotifyStopping] |}
          else
            {| state := IDLE_COUNTING; elapsed := now;
               idleTimer := S (idleTimer w); failures := 0;
               issued := issued w |}
      end
  end.

(** Modelled from the spec: the missing watchdog's run over the poll results
    of successive minutes. *)
Definition run (cfg : Settings) (polls : list Poll) : Process :=
  foldl (step cfg) start polls.

End Watchdog.

(** * Sample inputs *)

Definition sample_constants : Constants :=
  {| DOMAIN_STACK_REGION := "us-east-1";
     WATCHDOG_SERVER_CONTAINER_NAME := "minecraft-ecsfargate-watchdog" |}.

Definition sample_serverConfig (e : MinecraftEdition) : MinecraftServerConfig :=
  match e with
  | java =>
      {| image := "itzg/minecraft-server"; port := NumLit 25565;
         protocol := TCP; ingressRulePort := PortTcp 25565 |}
  | bedrock =>
      {| image := "itzg/minecraft-bedrock-server"; port := NumLit 19132;
         protocol := UDP; ingressRulePort := PortUdp 19132 |}
  end.

Definition sample_attr (id name : string) : string :=
  "${" ++ id ++ "." ++ name ++ "}".

(** [JSON.parse] cut down to two JSON texts, an empty object and an array;
    every other text is rejected. *)
Definition sample_parse (s : string) : option json :=
  if String.eqb s "{}" then Some (JObject [])
  else if String.eqb s "[7]" then Some (JArray [JNumber (NumLit 7)])
  else None.

Definition sample_stringAsBoolean (v : option string) : bool :=
  bool_decide (v = Some "true").

Definition sample_env : Env :=
  {[ "DOMAIN_NAME" := "example.com";
     "SUBDOMAIN_PART" := "mc";
     "SERVER_REGION" := "eu-west-1";
     "USE_FARGATE_SPOT" := "false";
     "MINECRAFT_IMAGE_ENV_VARS_JSON" := "{}" ]}.

Definition sample_config : StackConfig :=
  {| domainName := "example.com";
     subdomainPart := "mc";
     serverRegion := "eu-west-1";
     minecraftEdition := java;
     shutdownMinutes := "30";
     startupMinutes := "10";
     useFargateSpot := true;
     taskCpu := NumLit 8192;
     taskMemory := NumLit 2048;
     vpcId := "";
     minecraftImageEnv := {[ "EULA" := JString "TRUE" ]};
     snsEmailAddress := "";
     twilio := {| phoneFrom := ""; phoneTo := ""; accountId := ""; authCode := "" |};
     clusterName := Some "minecraft-server-undefined";
     serviceName := Some "minecraft-server";
     serverContainerName := Some "minecraft-server";
     ecsVolumeName := Some "minecraft-server-undefined-data";
     debug := false |}.

Definition sample_props : StackProps :=
  {| env_region := "eu-west-1"; env_account := None;
     props_config := sample_config |}.

Definition sample_stack : Stack :=
  MinecraftStack sample_constants sample_serverConfig false sample_attr
    "/cdk/lib" sample_props.

(** A domain stack whose construction succeeds, and a library that rejects
    nothing. *)
Definition sample_newDomainStack (props : StackProps) : result unit := Ok tt.

Definition sample_libraryError (props : StackProps) : option string := None.

Definition sample_main : Env → result App :=
  main (Config.resolveConfig sample_parse sample_stringAsBoolean)
    sample_constants sample_serverConfig false sample_attr "/cdk/lib"
    sample_newDomainStack sample_libraryError.

(** The sample environment with a VPC to look up, and still no account. *)
Definition sample_env_vpc : Env := <["VPC_ID" := "vpc-0abc"]> sample_env.

Definition sample_app : App :=
  match sample_main sample_env with
  | Ok app => app
  | Throw _ => {| stacks := []; dependencies := [] |}
  end.

Definition sample_settings : Watchdog.Settings :=
  {| Watchdog.startupMin := 10; Watchdog.shutdownMin := 30;
     Watchdog.retryBudget := 3 |}.

Definition sample_polls : list Watchdog.Poll :=
  [Watchdog.Connections 0; Watchdog.Unreachable; Watchdog.Connections 2;
   Watchdog.Connections 0].

(** The request to change the record sets of the hosted zone the stack reads
    from the parameter store. *)
Definition changeRecordSets (attr : string → string → string)
    (ctx : list (string * string)) : Request :=
  {| reqAction := "route53:ChangeResourceRecordSets";
     reqResource :=
       "arn:aws:route53:::hostedzone/" ++
       attr "Route53HostedZoneIdReader" "Parameter.Value";
     reqContext := ctx |}.

(** "No component other than the Launcher can change the record set": every
    role the stack lets make the request is the launcher's. *)
Definition only_launcher_changes_dns (attr : string → string → string)
    (stk : Stack) : Prop :=
  ∀ role ctx,
    role_allows stk role (changeRecordSets attr ctx) = true →
    role = "LauncherLambdaRole".

(** All Fargate services declared in the stack. *)
Definition services (stk : Stack) : list FargateService :=
  omap (λ ic, if ic.2 is CService s then Some s else None) (constructs stk).

(** The value a container of the stack receives for an environment
    variable. *)
Definition containerEnv (stk : Stack) (id key : string) : option json :=
  c ← container stk id; environment c !! key.

(** The capacity providers of a service of the stack. *)
Definition capacityProviders (stk : Stack) (id : string) : option (list string) :=
  (λ s, capacityProvider <$> capacityProviderStrategies s) <$> fargateService stk id.

(** [cfg] is what either copy of [resolveConfig] returns in [env]. *)
Definition resolved (JSON_parse : string → option json)
    (stringAsBoolean : option string → bool) (env : Env) (cfg : StackConfig) : Prop :=
  Config.resolveConfig JSON_parse stringAsBoolean env = Ok cfg
  ∨ ConfigAlt.resolveConfig JSON_parse stringAsBoolean env = Ok cfg.

(** * Reading a synthesized stack, continued *)

(** A configuration with other values in the four naming fields. *)
Definition with_names (cfg : StackConfig)
    (cluster service serverContainer volume : option string) : StackConfig :=
  {| domainName := domainName cfg;
     subdomainPart := subdomainPart cfg;
     serverRegion := serverRegion cfg;
     minecraftEdition := minecraftEdition cfg;
     shutdownMinutes := shutdownMinutes cfg;
     startupMinutes := startupMinutes cfg;
     useFargateSpot := useFargateSpot cfg;
     taskCpu := taskCpu cfg;
     taskMemory := taskMemory cfg;
     vpcId := vpcId cfg;
     minecraftImageEnv := minecraftImageEnv cfg;
     snsEmailAddress := snsEmailAddress cfg;
     twilio := twilio cfg;
     clusterName := cluster;
     serviceName := service;
     serverContainerName := serverContainer;
     ecsVolumeName := volume;
     debug := debug cfg |}.

Inductive Kind : Type :=
| KVpc | KFileSystem | KAccessPoint | KPolicy | KRole | KCluster
| KTaskDefinition | KContainer | KSecurityGroup | KService | KReader
| KTopic | KSubscription | KInstance.

Global Instance Kind_eq_dec : EqDecision Kind.
Proof. solve_decision. Defined.

Definition kind_of (c : Construct) : Kind :=
  match c with
  | CVpc _ => KVpc
  | CFileSystem _ => KFileSystem
  | CAccessPoint _ => KAccessPoint
  | CPolicy _ => KPolicy
  | CRole _ => KRole
  | CCluster _ => KCluster
  | CTaskDefinition _ => KTaskDefinition
  | CContainer _ => KContainer
  | CSecurityGroup _ => KSecurityGroup
  | CService _ => KService
  | CReader _ => KReader
  | CTopic _ => KTopic
  | CSubscription _ => KSubscription
  | CInstance _ => KInstance
  end.

(** Whether [id] names a child of the stack of one of the kinds [ks]. *)
Definition refers (stk : Stack) (ks : list Kind) (id : string) : bool :=
  match child id (constructs stk) with
  | Some c => bool_decide (kind_of c ∈ ks)
  | None => false
  end.

(** Whether every construct a child refers to is a child of the stack, of
    the kind the reference needs. *)
Definition references_ok (stk : Stack) (c : Construct) : bool :=
  match c with
  | CFileSystem f =>
      refers stk [KVpc] (fs_vpc f)
      && forallb (refers stk [KService; KInstance; KSecurityGroup])
           (fs_allowDefaultPortFrom f)
  | CAccessPoint a => refers stk [KFileSystem] (ap_fileSystem a)
  | CPolicy p => forallb (refers stk [KRole]) (roles p)
  | CCluster c => refers stk [KVpc] (cl_vpc c)
  | CTaskDefinition t => refers stk [KRole] (taskRole t)
  | CContainer d => refers stk [KTaskDefinition] (cd_taskDefinition d)
  | CSecurityGroup g => refers stk [KVpc] (sg_vpc g)
  | CService s =>
      refers stk [KCluster] (svc_cluster s)
      && refers stk [KTaskDefinition] (svc_taskDefinition s)
      && forallb (refers stk [KSecurityGroup]) (securityGroups s)
  | CSubscription s => refers stk [KTopic] (sub_topic s)
  | CInstance i =>
      refers stk [KRole] (inst_role i)
      && refers stk [KVpc] (inst_vpc i)
      && refers stk [KSecurityGroup] (inst_securityGroup i)
      && forallb (λ o, refers stk [KFileSystem; KSecurityGroup] o.1)
           (inst_allowFrom i)
  | _ => true
  end.

Definition references_resolve (stk : Stack) : bool :=
  forallb (λ ic, references_ok stk ic.2) (constructs stk).

(** All parameter readers declared in the stack. *)
Definition readers (stk : Stack) : list SSMParameterReader :=
  omap (λ ic, if ic.2 is CReader r then Some r else None) (constructs stk).

(** All clusters declared in the stack. *)
Definition clusters (stk : Stack) : list Cluster :=
  omap (λ ic, if ic.2 is CCluster c then Some c else None) (constructs stk).

(** The names of the volumes a container can mount: those of its task
    definition. *)
Definition mountable (stk : Stack) (d : ContainerDefinition) : list string :=
  match fargateTaskDefinition stk (cd_taskDefinition d) with
  | Some t => vol_name <$> volumes t
  | None => []
  end.

(** The ARN pattern of the tasks of the cluster, as the service-control
    policy builds it with [Arn.format]. *)
Definition taskArn (attr : string → string → string) (props : StackProps)
    (task : string) : string :=
  "arn:" ++ attr "AWS" "Partition" ++ ":" ++ "ecs" ++ ":" ++
  env_region props ++ ":" ++
  default (attr "AWS" "AccountId") (env_account props) ++ ":" ++
  "task" ++ "/" ++
  ("minecraft-server-" ++ subdomainPart (props_config props) ++ "/" ++ task).

(** All containers declared in the stack. *)
Definition containers (stk : Stack) : list ContainerDefinition :=
  omap (λ ic, if ic.2 is CContainer d then Some d else None) (constructs stk).

(** Whether every volume a container of the stack mounts is a volume of its
    task definition. *)
Definition mounts_declared (stk : Stack) : bool :=
  forallb (λ d, forallb (λ mp, existsb (String.eqb (sourceVolume mp))
                                 (mountable stk d))
                  (mountPoints d))
    (containers stk).

Definition securityGroup (stk : Stack) (id : string) : option SecurityGroup :=
  match child id (constructs stk) with
  | Some (CSecurityGroup g) => Some g
  | _ => None
  end.

(** The log drivers of the containers of the stack, in the order the
    containers were created. *)
Definition logDrivers (stk : Stack) : list (option AwsLogDriver) :=
  logging <$> containers stk.

(** * Sample inputs, continued *)

Definition sample_resolveConfig : Env → result StackConfig :=
  Config.resolveConfig sample_parse sample_stringAsBoolean.

(** The sample configuration with another subdomain. *)
Definition sample_config_play : StackConfig :=
  match sample_resolveConfig (<["SUBDOMAIN_PART" := "play"]> sample_env) with
  | Ok cfg => cfg
  | Throw _ => sample_config
  end.

(** The sample configuration with a cluster name of its own. *)
Definition sample_config_named : StackConfig :=
  match sample_resolveConfig (<["CLUSTER_NAME" := "my-cluster"]> sample_env) with
  | Ok cfg => cfg
  | Throw _ => sample_config
  end.

(** The variables the claim on the configuration surface lists for the
    watchdog container. *)
Definition stated_surface : list string :=
  ["STARTUPMIN"; "SHUTDOWNMIN"; "SNSTOPIC";
   "TWILIOFROM"; "TWILIOTO"; "TWILIOAID"; "TWILIOAUTH"].

(** The variables that name the resources the watchdog acts on. *)
Definition resource_names : list string :=
  ["CLUSTER"; "SERVICE"; "DNSZONE"; "SERVERNAME"].

(** "The watchdog container receives exactly the variables [keys]": it
    receives no variable outside of them. *)
Definition receives_only (stk : Stack) (keys : list string) : Prop :=
  ∀ key, is_Some (containerEnv stk "WatchDogContainer" key) → key ∈ keys.

(** "The entrypoint throws if and only if [config.domainName] is empty." *)
Definition throws_iff_no_domain_name (resolveConfig : Env → result StackConfig)
    (main : Env → result App) (env : Env) : Prop :=
  ∀ config, resolveConfig env = Ok config →
    (throws (main env) ↔ domainName config = "").

(** "When the variable is valid JSON, [resolveConfig] returns with
    [minecraftImageEnv] equal to the parsed object merged over the default
    [{EULA: 'TRUE'}]." *)
Definition merges_over_default (JSON_parse : string → option json)
    (resolveConfig : Env → result StackConfig) : Prop :=
  ∀ env text v,
    env !! "MINECRAFT_IMAGE_ENV_VARS_JSON" = Some text →
    JSON_parse text = Some v →
    ∃ cfg,
      resolveConfig env = Ok cfg
      ∧ minecraftImageEnv cfg
        = assign (own_props v) ∅ ∪ {[ "EULA" := JString "TRUE" ]}.

(** The managed policies of the roles of the stack that have some. *)
Definition managed (stk : Stack) : list (string * list string) :=
  omap (λ ic, match ic.2 with
              | CRole r =>
                  if managedPolicies r is [] then None
                  else Some (ic.1, managedPolicies r)
              | _ => None
              end) (constructs stk).

(** * Properties *)

(** ** Helper lemmas *)

Lemma or_bool_true_r (a : bool) : or_bool a true = true.
Proof. by destruct a. Qed.

Lemma nonempty_spec (s : string) : nonempty s = true ↔ s ≠ "".
Proof. destruct s; simpl; split; congruence. Qed.

Lemma wildcard_refl (s : string) : wildcard s s = true.
Proof.
  induction s as [|c s IH]; [done|].
  cbn [wildcard]. destruct (Ascii.eqb c "*") eqn:Hc.
  - apply orb_true_iff; right.
    destruct s as [|d s']; [done|].
    apply orb_true_iff; left. exact IH.
  - rewrite Ascii.eqb_refl, IH. by rewrite orb_true_r.
Qed.

Lemma assign_union (kvs : list (string * json)) (o : object) :
  assign kvs o = assign kvs ∅ ∪ o.
Proof.
  unfold assign. revert o.
  induction kvs as [|[k v] kvs IH] using rev_ind; intros o.
  - simpl. by rewrite (left_id_L ∅ (∪)).
  - rewrite !foldl_app. simpl. rewrite IH. by rewrite insert_union_l.
Qed.

(** Unfolds the constructor of the server stack, splits on whether an e-mail
    address is configured, and evaluates. *)
Ltac synth :=
  intros; unfold MinecraftStack, constructor;
  match goal with
  | |- context [nonempty (snsEmailAddress ?c)] =>
      destruct (nonempty (snsEmailAddress c)) eqn:?
  end; vm_compute; try reflexivity.

(** Replaces the list of children of the synthesized stack by its value, once
    for each of the two shapes of the stack. *)
Ltac explicit_constructs :=
  unfold MinecraftStack, constructor;
  match goal with
  | |- context [nonempty (snsEmailAddress ?c)] =>
      destruct (nonempty (snsEmailAddress c))
  end;
  match goal with
  | |- context [constructs ?s] =>
      let cs := eval vm_compute in (constructs s) in
      change (constructs s) with cs
  end.

(** ** The server stack *)

Section StackProperties.
Variable constants : Constants.
Variable getMinecraftServerConfig : MinecraftEdition → MinecraftServerConfig.
Variable isDockerInstalled : bool.
Variable attr : string → string → string.
Variable dirname : string.

Local Abbreviation synthesized :=
  (MinecraftStack constants getMinecraftServerConfig isDockerInstalled attr dirname).

Lemma capacity_provider_of_stack (props : StackProps) :
  capacityProviders (synthesized props) "FargateService"
  = Some [if useFargateSpot (props_config props)
          then "FARGATE_SPOT" else "FARGATE"].
Proof. synth. Qed.

Lemma watchdog_minutes_of_stack (props : StackProps) :
  containerEnv (synthesized props) "WatchDogContainer" "STARTUPMIN"
  = Some (JString (startupMinutes (props_config props)))
  ∧ containerEnv (synthesized props) "WatchDogContainer" "SHUTDOWNMIN"
    = Some (JString (shutdownMinutes (props_config props))).
Proof. split; synth. Qed.

(** C2: the game server's Fargate service, the only service of the stack, is
    declared with a desired count of zero, whatever the configuration: until
    something asks for a task, none is desired. *)
Theorem C2_service_declared_with_zero_tasks (props : StackProps) :
  desiredCount <$> fargateService (synthesized props) "FargateService" = Some 0%Z
  ∧ desiredCount <$> services (synthesized props) = [0%Z].
Proof. split; synth. Qed.

(** C6: the stack declares an SNS topic and an e-mail subscription whose
    endpoint is the configured address exactly when [snsEmailAddress] is
    non-empty, and the watchdog then receives the topic's ARN as SNSTOPIC;
    otherwise it declares neither and the watchdog receives the empty
    string. *)
Theorem C6_email_channel_iff_address (props : StackProps) :
  if nonempty (snsEmailAddress (props_config props)) then
    topics (synthesized props)
    = [{| displayName := "Minecraft Server Notifications" |}]
    ∧ subscriptions (synthesized props)
      = [{| sub_protocol := EMAIL; sub_topic := "ServerSnsTopic";
            endpoint := snsEmailAddress (props_config props) |}]
    ∧ containerEnv (synthesized props) "WatchDogContainer" "SNSTOPIC"
      = Some (JString (attr "ServerSnsTopic" "topicArn"))
  else
    topics (synthesized props) = []
    ∧ subscriptions (synthesized props) = []
    ∧ containerEnv (synthesized props) "WatchDogContainer" "SNSTOPIC"
      = Some (JString "").
Proof. synth; repeat split. Qed.

(** The names of the variables of the watchdog container. *)
Lemma watchdog_variables (props : StackProps) :
  (λ c, dom (environment c)) <$> container (synthesized props) "WatchDogContainer"
  = Some (list_to_set (stated_surface ++ resource_names)).
Proof. synth. Qed.

(** C7, amended: whatever the configuration, the watchdog container's
    environment carries the startup and shutdown minutes, the SNS topic and
    the four Twilio fields of the configuration, and besides them the four
    variables that name the cluster, the service, the hosted zone and the
    server, and no other variable; the task definition carries the
    configured CPU and memory; and both containers get a log driver exactly
    when [debug] is set. *)
Theorem C7_configuration_surface (props : StackProps) :
  containerEnv (synthesized props) "WatchDogContainer" "STARTUPMIN"
  = Some (JString (startupMinutes (props_config props)))
  ∧ containerEnv (synthesized props) "WatchDogContainer" "SHUTDOWNMIN"
    = Some (JString (shutdownMinutes (props_config props)))
  ∧ containerEnv (synthesized props) "WatchDogContainer" "SNSTOPIC"
    = Some (JString (if nonempty (snsEmailAddress (props_config props))
                     then attr "ServerSnsTopic" "topicArn" else ""))
  ∧ containerEnv (synthesized props) "WatchDogContainer" "TWILIOFROM"
    = Some (JString (phoneFrom (twilio (props_config props))))
  ∧ containerEnv (synthesized props) "WatchDogContainer" "TWILIOTO"
    = Some (JString (phoneTo (twilio (props_config props))))
  ∧ containerEnv (synthesized props) "WatchDogContainer" "TWILIOAID"
    = Some (JString (accountId (twilio (props_config props))))
  ∧ containerEnv (synthesized props) "WatchDogContainer" "TWILIOAUTH"
    = Some (JString (authCode (twilio (props_config props))))
  ∧ (λ t, (cpu t, memoryLimitMiB t))
      <$> fargateTaskDefinition (synthesized props) "TaskDefinition"
    = Some (taskCpu (props_config props), taskMemory (props_config props))
  ∧ logging <$> container (synthesized props) "ServerContainer"
    = Some (if debug (props_config props)
            then Some {| logRetention := THREE_DAYS;
                         streamPrefix := "minecraft-server" |}
            else None)
  ∧ logging <$> container (synthesized props) "WatchDogContainer"
    = Some (if debug (props_config props)
            then Some {| logRetention := THREE_DAYS;
                         streamPrefix := WATCHDOG_SERVER_CONTAINER_NAME constants |}
            else None)
  ∧ containerEnv (synthesized props) "WatchDogContainer" "CLUSTER"
    = Some (JString ("minecraft-server-" ++ subdomainPart (props_config props)))
  ∧ containerEnv (synthesized props) "WatchDogContainer" "SERVICE"
    = Some (JString "minecraft-server")
  ∧ containerEnv (synthesized props) "WatchDogContainer" "DNSZONE"
    = Some (JString (attr "Route53HostedZoneIdReader" "Parameter.Value"))
  ∧ containerEnv (synthesized props) "WatchDogContainer" "SERVERNAME"
    = Some (JString (subdomainPart (props_config props) ++ "." ++
                     domainName (props_config props)))
  ∧ receives_only (synthesized props) (stated_surface ++ resource_names).
Proof.
  do 14 (split; [synth|]).
  intros key. unfold containerEnv.
  pose proof (watchdog_variables props) as Hdom.
  remember (list_to_set (stated_surface ++ resource_names)) as keys eqn:Hkeys.
  destruct (container (synthesized props) "WatchDogContainer") as [c|];
    simpl in Hdom |- *; [|by intros [? ?]].
  injection Hdom as Hdom. intros Hkey.
  apply elem_of_dom in Hkey. rewrite Hdom, Hkeys in Hkey.
  by apply (elem_of_list_to_set (C := gset string)) in Hkey.
Qed.

(** C1, amended: by the declarations of the server stack, the role that may
    change the record sets of the hosted zone is the ECS task role, under
    which the watchdog runs, and no other; the launcher's role gets from the
    stack the actions of the service-control policy only. *)
Theorem C1_task_role_changes_dns (props : StackProps) (role : string)
    (ctx : list (string * string)) :
  (role_allows (synthesized props) role (changeRecordSets attr ctx) = true
   ↔ role = "TaskRole")
  ∧ concat (actions <$> role_statements (synthesized props) "LauncherLambdaRole")
    = ["ecs:*"; "ec2:DescribeNetworkInterfaces"].
Proof.
  split; [|synth].
  unfold role_allows, role_statements. split.
  - explicit_constructs.
    all: cbn -[wildcard String.eqb].
    all: destruct (String.eqb_spec "TaskRole" role) as [<-|_]; [done|].
    all: destruct (String.eqb_spec "LauncherLambdaRole" role) as [<-|_];
      [vm_compute; discriminate|].
    all: destruct (String.eqb_spec "EC2Role" role) as [<-|_];
      [vm_compute; discriminate|].
    all: vm_compute; discriminate.
  - intros ->. explicit_constructs.
    all: unfold statements_allow, statement_matches, changeRecordSets.
    all: cbn -[wildcard].
    all: match goal with
         | |- context [wildcard _ (?p +:+ ?z)] =>
             let r := eval vm_compute in (p +:+ z) in
             change (p +:+ z) with r
         end.
    all: rewrite !wildcard_refl.
    all: vm_compute; reflexivity.
Qed.

End StackProperties.

(** C1, as stated, fails: in the sample stack the ECS task role, which is not
    the launcher's, may change the record sets of the hosted zone. *)
Lemma C1_counterexample : ¬ only_launcher_changes_dns sample_attr sample_stack.
Proof.
  intros H. specialize (H "TaskRole" []).
  vm_compute in H. discriminate (H eq_refl).
Qed.

(** C7, as stated, fails: the watchdog container of the sample stack
    receives CLUSTER, which is none of the seven variables of the stated
    surface. *)
Lemma C7_counterexample : ¬ receives_only sample_stack stated_surface.
Proof.
  intros H. specialize (H "CLUSTER").
  assert (Hin : "CLUSTER" ∈ stated_surface) by (apply H; vm_compute; eauto).
  unfold stated_surface in Hin.
  repeat (apply elem_of_cons in Hin as [Hin|Hin]; [discriminate|]).
  by apply elem_of_nil in Hin.
Qed.

(** ** Configuration resolution *)

Section ConfigProperties.
Variable JSON_parse : string → option json.
Variable stringAsBoolean : option string → bool.

Local Abbreviation resolved' := (resolved JSON_parse stringAsBoolean).

(** The fields of a resolved configuration that do not depend on the copy
    of [resolveConfig] that built it. *)
Lemma resolved_fields (env : Env) (cfg : StackConfig) :
  resolved' env cfg →
  startupMinutes cfg = or_string (env !! "STARTUP_MINUTES") "10"
  ∧ shutdownMinutes cfg = or_string (env !! "SHUTDOWN_MINUTES") "30"
  ∧ useFargateSpot cfg
    = or_bool (stringAsBoolean (env !! "USE_FARGATE_SPOT")) true.
Proof.
  unfold resolved, Config.resolveConfig, ConfigAlt.resolveConfig.
  intros [H|H]; revert H.
  - destruct (Config.resolveMinecraftEnvVars _ _); simpl; [|done].
    by intros [= <-].
  - destruct (ConfigAlt.resolveMinecraftEnvVars _ _); simpl; [|done].
    by intros [= <-].
Qed.

(** C4: when STARTUP_MINUTES and SHUTDOWN_MINUTES are not set, the resolved
    configuration has [startupMinutes = '10'] and [shutdownMinutes = '30'],
    and the watchdog container of a stack built from it receives these as
    STARTUPMIN and SHUTDOWNMIN. *)
Theorem C4_default_minutes (env : Env) (cfg : StackConfig) :
  env !! "STARTUP_MINUTES" = None →
  env !! "SHUTDOWN_MINUTES" = None →
  resolved' env cfg →
  startupMinutes cfg = "10"
  ∧ shutdownMinutes cfg = "30"
  ∧ ∀ constants serverConfig docker attr dirname region account,
      containerEnv
        (MinecraftStack constants serverConfig docker attr dirname
           {| env_region := region; env_account := account;
              props_config := cfg |})
        "WatchDogContainer" "STARTUPMIN" = Some (JString "10")
      ∧ containerEnv
          (MinecraftStack constants serverConfig docker attr dirname
             {| env_region := region; env_account := account;
                props_config := cfg |})
          "WatchDogContainer" "SHUTDOWNMIN" = Some (JString "30").
Proof.
  intros Hstart Hstop Hcfg.
  destruct (resolved_fields env cfg Hcfg) as (Hs & Hd & _).
  rewrite Hstart in Hs. rewrite Hstop in Hd. simpl in Hs, Hd.
  split; [done|]. split; [done|]. intros.
  rewrite <- Hs, <- Hd. apply watchdog_minutes_of_stack.
Qed.

(** C5: in every environment the resolved configuration has
    [useFargateSpot = true], whatever [stringAsBoolean] makes of
    USE_FARGATE_SPOT, and the service of a stack built from it uses the
    capacity provider FARGATE_SPOT. *)
Theorem C5_always_fargate_spot (env : Env) (cfg : StackConfig) :
  resolved' env cfg →
  useFargateSpot cfg = true
  ∧ ∀ constants serverConfig docker attr dirname region account,
      capacityProviders
        (MinecraftStack constants serverConfig docker attr dirname
           {| env_region := region; env_account := account;
              props_config := cfg |})
        "FargateService" = Some ["FARGATE_SPOT"].
Proof.
  intros Hcfg.
  destruct (resolved_fields env cfg Hcfg) as (_ & _ & Hspot).
  rewrite or_bool_true_r in Hspot. split; [done|]. intros.
  rewrite capacity_provider_of_stack. simpl. by rewrite Hspot.
Qed.

(** C9, amended: when MINECRAFT_IMAGE_ENV_VARS_JSON is unset, empty or
    rejected by [JSON.parse], both copies of [resolveConfig] throw the error
    'Unable to resolve .env value for MINECRAFT_IMAGE_ENV_VARS_JSON.'; when
    [JSON.parse] accepts it, both return, [src/unnamed/part_001] with
    [minecraftImageEnv] equal to the properties of the parsed value over the
    default [{EULA: 'TRUE'}], the copy in [src/cdk/lib/ec2-stack.ts] with the
    properties of the parsed value alone. *)
Theorem C9_image_env_json (env : Env) :
  JSON_parse "" = None →
  ((env !! "MINECRAFT_IMAGE_ENV_VARS_JSON" = None
    ∨ env !! "MINECRAFT_IMAGE_ENV_VARS_JSON" = Some ""
    ∨ ∃ text, env !! "MINECRAFT_IMAGE_ENV_VARS_JSON" = Some text
              ∧ JSON_parse text = None) →
   Config.resolveConfig JSON_parse stringAsBoolean env = Throw json_error
   ∧ ConfigAlt.resolveConfig JSON_parse stringAsBoolean env = Throw json_error)
  ∧ ∀ text v,
      env !! "MINECRAFT_IMAGE_ENV_VARS_JSON" = Some text →
      JSON_parse text = Some v →
      (∃ cfg,
         Config.resolveConfig JSON_parse stringAsBoolean env = Ok cfg
         ∧ minecraftImageEnv cfg
           = assign (own_props v) ∅ ∪ {[ "EULA" := JString "TRUE" ]})
      ∧ (∃ cfg,
           ConfigAlt.resolveConfig JSON_parse stringAsBoolean env = Ok cfg
           ∧ minecraftImageEnv cfg = assign (own_props v) ∅).
Proof.
  intros Hempty.
  unfold Config.resolveConfig, Config.resolveMinecraftEnvVars,
    ConfigAlt.resolveConfig, ConfigAlt.resolveMinecraftEnvVars.
  split.
  - intros [-> | [-> | (text & -> & Htext)]]; simpl.
    + by rewrite Hempty.
    + by rewrite Hempty.
    + by rewrite Htext.
  - intros text v -> Htext. simpl. rewrite Htext. simpl. split.
    + eexists. split; [done|]. simpl.
      rewrite (assign_union (own_props v)). f_equal.
    + eexists. split; done.
Qed.

(** The copy in [src/cdk/lib/ec2-stack.ts] throws in the same cases, and
    keeps the properties of the parsed value alone. *)
Lemma ConfigAlt_image_env_json (env : Env) :
  match JSON_parse (default "" (env !! "MINECRAFT_IMAGE_ENV_VARS_JSON")) with
  | None => ConfigAlt.resolveConfig JSON_parse stringAsBoolean env = Throw json_error
  | Some v =>
      ∃ cfg,
        ConfigAlt.resolveConfig JSON_parse stringAsBoolean env = Ok cfg
        ∧ minecraftImageEnv cfg = assign (own_props v) ∅
  end.
Proof.
  unfold ConfigAlt.resolveConfig, ConfigAlt.resolveMinecraftEnvVars.
  destruct (JSON_parse _); simpl; [|done].
  eexists. split; done.
Qed.

End ConfigProperties.

(** ** The entrypoint *)

Section EntrypointProperties.
Variable resolveConfig : Env → result StackConfig.
Variable constants : Constants.
Variable getMinecraftServerConfig : MinecraftEdition → MinecraftServerConfig.
Variable isDockerInstalled : bool.
Variable attr : string → string → string.
Variable dirname : string.
Variable newDomainStack : StackProps → result unit.
Variable libraryError : StackProps → option string.

Local Abbreviation main' :=
  (main resolveConfig constants getMinecraftServerConfig isDockerInstalled
     attr dirname newDomainStack libraryError).

Local Abbreviation assemble' :=
  (assemble constants getMinecraftServerConfig isDockerInstalled attr dirname
     newDomainStack libraryError).

(** The three checks have two outcomes, decided by [domainName] alone. *)
Lemma checks_cases (config : StackConfig) :
  (domainName config = "" ∧ checks config = Throw missing_DOMAIN_NAME)
  ∨ (domainName config ≠ "" ∧ checks config = Ok tt).
Proof.
  unfold checks. destruct (domainName config) as [|c s]; simpl.
  - by left.
  - by right.
Qed.

(** C8, amended: once the configuration is resolved, the three checks of
    the entrypoint throw exactly when [domainName] is empty, and what they
    throw is the DOMAIN_NAME error: a missing SUBDOMAIN_PART or
    SERVER_REGION is never reported and the two errors that name them are
    never thrown by the checks.  Without a domain name the entrypoint
    throws the DOMAIN_NAME error; with one it goes on to construct the two
    stacks, and returns or throws as their construction does. *)
Theorem C8_checks_test_domain_name_only (env : Env) (config : StackConfig) :
  resolveConfig env = Ok config →
  (throws (checks config) ↔ domainName config = "")
  ∧ (∀ msg, checks config = Throw msg → msg = missing_DOMAIN_NAME)
  ∧ (domainName config = "" → main' env = Throw missing_DOMAIN_NAME)
  ∧ (domainName config ≠ "" → main' env = assemble' env config).
Proof.
  intros Hcfg. unfold main. rewrite Hcfg. simpl.
  destruct (checks_cases config) as [[Hd Hc] | [Hd Hc]];
    rewrite Hc; unfold throws; simpl.
  - split; [split; eauto|]. split; [by intros msg [= <-]|done].
  - split; [split; [by intros [msg ?]|done]|]. done.
Qed.

(** C10: when the entrypoint returns, the domain stack is in the region
    [constants.DOMAIN_STACK_REGION], the server stack is in
    [config.serverRegion], the server stack depends on the domain stack, and
    the domain stack is therefore deployed first. *)
Theorem C10_stack_regions_and_order (env : Env) (app : App) :
  main' env = Ok app →
  ∃ config,
    resolveConfig env = Ok config
    ∧ regionOf app "minecraft-domain-stack" = Some (DOMAIN_STACK_REGION constants)
    ∧ regionOf app "minecraft-server-stack" = Some (serverRegion config)
    ∧ dependencies app = [("minecraft-server-stack", "minecraft-domain-stack")]
    ∧ deployOrder app = ["minecraft-domain-stack"; "minecraft-server-stack"].
Proof.
  unfold main. destruct (resolveConfig env) as [config|msg]; simpl; [|done].
  destruct (checks config) as [[]|msg]; simpl; [|done].
  unfold assemble, newMinecraftStack.
  destruct (newDomainStack _) as [[]|msg]; simpl; [|done].
  destruct (nonempty (vpcId config) && _); simpl; [done|].
  destruct (libraryError _) as [msg|]; simpl; [done|].
  intros [= <-]. exists config. repeat split.
Qed.

End EntrypointProperties.

(** ** The watchdog *)

Section WatchdogProperties.
Variable cfg : Watchdog.Settings.

(** While the grace window lasts, a poll leaves the watchdog running, with
    nothing asked of its collaborators. *)
Lemma step_in_grace (w : Watchdog.Process) (p : Watchdog.Poll) :
  Watchdog.state w ≠ Watchdog.SHUTTING_DOWN →
  Watchdog.issued w = [] →
  S (Watchdog.elapsed w) < Watchdog.startupMin cfg →
  Watchdog.state (Watchdog.step cfg w p) ≠ Watchdog.SHUTTING_DOWN
  ∧ Watchdog.issued (Watchdog.step cfg w p) = []
  ∧ Watchdog.elapsed (Watchdog.step cfg w p) = S (Watchdog.elapsed w).
Proof.
  intros Hst Hiss Hlt. unfold Watchdog.step.
  apply Nat.ltb_lt in Hlt.
  destruct (Watchdog.state w) eqn:Hs; [| | |done];
    (destruct (Watchdog.sample cfg w p) as [[|n]|]; [rewrite Hlt| |]);
    simpl; rewrite ?Hs; done.
Qed.

Lemma run_in_grace (polls : list Watchdog.Poll) (w : Watchdog.Process) :
  Watchdog.state w ≠ Watchdog.SHUTTING_DOWN →
  Watchdog.issued w = [] →
  Watchdog.elapsed w + length polls < Watchdog.startupMin cfg →
  Watchdog.state (foldl (Watchdog.step cfg) w polls) ≠ Watchdog.SHUTTING_DOWN
  ∧ Watchdog.issued (foldl (Watchdog.step cfg) w polls) = [].
Proof.
  revert w. induction polls as [|p polls IH]; intros w Hst Hiss Hlt; [done|].
  simpl in *.
  destruct (step_in_grace w p Hst Hiss) as (Hst' & Hiss' & Hel'); [lia|].
  apply IH; [done|done|lia].
Qed.

(** C3: whatever the polls report, as long as they all fall in the startup
    grace window (fewer minutes have elapsed than the grace period), the
    watchdog is not SHUTTING_DOWN and has issued no scale-down request. *)
Theorem C3_no_shutdown_during_grace (polls : list Watchdog.Poll) :
  length polls < Watchdog.startupMin cfg →
  Watchdog.state (Watchdog.run cfg polls) ≠ Watchdog.SHUTTING_DOWN
  ∧ Watchdog.issued (Watchdog.run cfg polls) = [].
Proof. intros Hlt. by apply run_in_grace. Qed.

End WatchdogProperties.

(** After the grace window the model does shut down: with the default ten and
    thirty minutes, nine idle polls in the window and thirty after it end in
    one scale-down request. *)
Example watchdog_shuts_down_after_grace :
  Watchdog.state
    (Watchdog.run sample_settings (replicate 39 (Watchdog.Connections 0)))
  = Watchdog.SHUTTING_DOWN
  ∧ Watchdog.issued
      (Watchdog.run sample_settings (replicate 39 (Watchdog.Connections 0)))
    = [Watchdog.SetDesiredCount 0; Watchdog.NotifyStopping]
  ∧ Watchdog.state
      (Watchdog.run sample_settings (replicate 38 (Watchdog.Connections 0)))
    = Watchdog.IDLE_COUNTING.
Proof. by vm_compute. Qed.

(** ** Concrete runs *)

Example resolveConfig_sample :
  Config.resolveConfig sample_parse sample_stringAsBoolean sample_env
  = Ok sample_config.
Proof. by vm_compute. Qed.

(** An array is valid JSON: its element lands under its index, next to the
    default. *)
Example resolveMinecraftEnvVars_array :
  Config.resolveMinecraftEnvVars sample_parse (Some "[7]")
  = Ok {[ "0" := JNumber (NumLit 7); "EULA" := JString "TRUE" ]}.
Proof. by vm_compute. Qed.

(** The roles of the sample stack, in the order the constructor meets them. *)
Example stack_roles_sample :
  stack_roles sample_stack = ["TaskRole"; "LauncherLambdaRole"; "EC2Role"].
Proof. by vm_compute. Qed.

(** Without a domain name the entrypoint throws the first error. *)
Example main_without_domain :
  sample_main {[ "SUBDOMAIN_PART" := "mc"; "SERVER_REGION" := "eu-west-1";
                 "MINECRAFT_IMAGE_ENV_VARS_JSON" := "{}" ]}
  = Throw missing_DOMAIN_NAME.
Proof. by vm_compute. Qed.

(** With a VPC to look up and no account the entrypoint throws, although a
    domain name is given. *)
Example main_with_vpc_without_account :
  sample_main sample_env_vpc = Throw vpc_lookup_error
  ∧ sample_main (<["CDK_DEFAULT_ACCOUNT" := "123456789012"]> sample_env_vpc)
    ≠ Throw vpc_lookup_error.
Proof. split; by vm_compute. Qed.

(** Without a subdomain and a region, but with a domain name, it returns. *)
Example main_without_subdomain_and_region :
  (if sample_main {[ "DOMAIN_NAME" := "example.com";
                     "MINECRAFT_IMAGE_ENV_VARS_JSON" := "{}" ]}
   is Ok _ then true else false) = true.
Proof. by vm_compute. Qed.

(** ** Witnesses *)

Lemma C3_witness :
  length sample_polls < Watchdog.startupMin sample_settings
  ∧ Watchdog.state (Watchdog.run sample_settings sample_polls)
    ≠ Watchdog.SHUTTING_DOWN
  ∧ Watchdog.issued (Watchdog.run sample_settings sample_polls) = [].
Proof.
  split; [simpl; lia|].
  apply (C3_no_shutdown_during_grace sample_settings sample_polls).
  simpl; lia.
Defined.

Lemma C4_witness :
  sample_env !! "STARTUP_MINUTES" = None
  ∧ sample_env !! "SHUTDOWN_MINUTES" = None
  ∧ resolved sample_parse sample_stringAsBoolean sample_env sample_config
  ∧ startupMinutes sample_config = "10"
  ∧ shutdownMinutes sample_config = "30"
  ∧ containerEnv sample_stack "WatchDogContainer" "STARTUPMIN"
    = Some (JString "10")
  ∧ containerEnv sample_stack "WatchDogContainer" "SHUTDOWNMIN"
    = Some (JString "30").
Proof.
  assert (H1 : sample_env !! "STARTUP_MINUTES" = None) by reflexivity.
  assert (H2 : sample_env !! "SHUTDOWN_MINUTES" = None) by reflexivity.
  assert (H3 : resolved sample_parse sample_stringAsBoolean sample_env sample_config)
    by (left; vm_compute; reflexivity).
  destruct (C4_default_minutes sample_parse sample_stringAsBoolean
              sample_env sample_config H1 H2 H3) as (Hs & Hd & Hstack).
  destruct (Hstack sample_constants sample_serverConfig false sample_attr
              "/cdk/lib" "eu-west-1" None) as [Hw1 Hw2].
  repeat split; assumption.
Defined.

Lemma C5_witness :
  sample_env !! "USE_FARGATE_SPOT" = Some "false"
  ∧ sample_stringAsBoolean (Some "false") = false
  ∧ resolved sample_parse sample_stringAsBoolean sample_env sample_config
  ∧ useFargateSpot sample_config = true
  ∧ capacityProviders sample_stack "FargateService" = Some ["FARGATE_SPOT"].
Proof.
  assert (H : resolved sample_parse sample_stringAsBoolean sample_env sample_config)
    by (left; vm_compute; reflexivity).
  destruct (C5_always_fargate_spot sample_parse sample_stringAsBoolean
              sample_env sample_config H) as [Hspot Hstack].
  split; [reflexivity|]. split; [reflexivity|].
  split; [exact H|]. split; [exact Hspot|].
  exact (Hstack sample_constants sample_serverConfig false sample_attr
           "/cdk/lib" "eu-west-1" None).
Defined.

Lemma C8_witness :
  Config.resolveConfig sample_parse sample_stringAsBoolean sample_env
  = Ok sample_config
  ∧ (throws (checks sample_config) ↔ domainName sample_config = "")
  ∧ (∀ msg, checks sample_config = Throw msg → msg = missing_DOMAIN_NAME)
  ∧ (domainName sample_config = "" →
     sample_main sample_env = Throw missing_DOMAIN_NAME)
  ∧ (domainName sample_config ≠ "" →
     sample_main sample_env
     = assemble sample_constants sample_serverConfig false sample_attr
         "/cdk/lib" sample_newDomainStack sample_libraryError
         sample_env sample_config).
Proof.
  assert (H : Config.resolveConfig sample_parse sample_stringAsBoolean sample_env
              = Ok sample_config) by (vm_compute; reflexivity).
  split; [exact H|].
  exact (C8_checks_test_domain_name_only
           (Config.resolveConfig sample_parse sample_stringAsBoolean)
           sample_constants sample_serverConfig false sample_attr "/cdk/lib"
           sample_newDomainStack sample_libraryError
           sample_env sample_config H).
Defined.

Lemma C9_witness :
  sample_parse "" = None
  ∧ (Config.resolveConfig sample_parse sample_stringAsBoolean
       (delete "MINECRAFT_IMAGE_ENV_VARS_JSON" sample_env)
     = Throw json_error
     ∧ ConfigAlt.resolveConfig sample_parse sample_stringAsBoolean
         (delete "MINECRAFT_IMAGE_ENV_VARS_JSON" sample_env)
       = Throw json_error)
  ∧ (∃ cfg,
       Config.resolveConfig sample_parse sample_stringAsBoolean
         (<["MINECRAFT_IMAGE_ENV_VARS_JSON" := "[7]"]> sample_env) = Ok cfg
       ∧ minecraftImageEnv cfg
         = assign (own_props (JArray [JNumber (NumLit 7)])) ∅
           ∪ {[ "EULA" := JString "TRUE" ]})
  ∧ (∃ cfg,
       ConfigAlt.resolveConfig sample_parse sample_stringAsBoolean
         (<["MINECRAFT_IMAGE_ENV_VARS_JSON" := "[7]"]> sample_env) = Ok cfg
       ∧ minecraftImageEnv cfg
         = assign (own_props (JArray [JNumber (NumLit 7)])) ∅).
Proof.
  assert (H : sample_parse "" = None) by reflexivity.
  split; [exact H|]. split.
  - apply (C9_image_env_json sample_parse sample_stringAsBoolean
             (delete "MINECRAFT_IMAGE_ENV_VARS_JSON" sample_env) H).
    left. reflexivity.
  - apply (C9_image_env_json sample_parse sample_stringAsBoolean
             (<["MINECRAFT_IMAGE_ENV_VARS_JSON" := "[7]"]> sample_env) H)
      with (text := "[7]"); reflexivity.
Defined.

(** C8, as stated, fails: with a VPC to look up and no account, the sample
    entrypoint throws although the domain name is not empty. *)
Lemma C8_counterexample :
  ¬ throws_iff_no_domain_name
      (Config.resolveConfig sample_parse sample_stringAsBoolean)
      sample_main sample_env_vpc.
Proof.
  intros H.
  destruct (Config.resolveConfig sample_parse sample_stringAsBoolean
              sample_env_vpc) as [config|msg] eqn:Hcfg;
    [|vm_compute in Hcfg; discriminate].
  destruct (H config Hcfg) as [Hthrows _].
  assert (Hempty : domainName config = "").
  { apply Hthrows. exists vpc_lookup_error. by vm_compute. }
  vm_compute in Hcfg. injection Hcfg as <-. discriminate.
Qed.

(** C9, as stated, fails for the copy in [src/cdk/lib/ec2-stack.ts]: on the
    empty object it returns a configuration without EULA. *)
Lemma C9_counterexample :
  ¬ merges_over_default sample_parse
      (ConfigAlt.resolveConfig sample_parse sample_stringAsBoolean).
Proof.
  intros H.
  destruct (H sample_env "{}" (JObject []) eq_refl eq_refl) as (cfg & Hcfg & Hm).
  vm_compute in Hcfg. injection Hcfg as <-.
  apply (f_equal (λ m : object, m !! "EULA")) in Hm.
  vm_compute in Hm. discriminate.
Qed.

Lemma C10_witness :
  sample_main sample_env = Ok sample_app
  ∧ ∃ config,
      Config.resolveConfig sample_parse sample_stringAsBoolean sample_env
      = Ok config
      ∧ regionOf sample_app "minecraft-domain-stack" = Some "us-east-1"
      ∧ regionOf sample_app "minecraft-server-stack" = Some (serverRegion config)
      ∧ dependencies sample_app
        = [("minecraft-server-stack", "minecraft-domain-stack")]
      ∧ deployOrder sample_app
        = ["minecraft-domain-stack"; "minecraft-server-stack"].
Proof.
  assert (H : sample_main sample_env = Ok sample_app) by (vm_compute; reflexivity).
  split; [exact H|].
  exact (C10_stack_regions_and_order
           (Config.resolveConfig sample_parse sample_stringAsBoolean)
           sample_constants sample_serverConfig false sample_attr "/cdk/lib"
           sample_newDomainStack sample_libraryError
           sample_env sample_app H).
Defined.

(** ** Configuration resolution, continued *)

Section ConfigCoverage.
Variable JSON_parse : string → option json.
Variable stringAsBoolean : option string → bool.

(** A variable set to the empty string reads like one that is not set. *)
Lemma or_string_blank (env : Env) (k x d : string) :
  or_string (<[k := ""]> env !! x) d = or_string (delete k env !! x) d.
Proof.
  destruct (decide (k = x)) as [->|Hne].
  - by rewrite lookup_insert_eq, lookup_delete_eq.
  - by rewrite lookup_insert_ne, lookup_delete_ne.
Qed.

Lemma or_number_blank (env : Env) (k x : string) (n : Z) :
  or_number (<[k := ""]> env !! x) n = or_number (delete k env !! x) n.
Proof.
  destruct (decide (k = x)) as [->|Hne].
  - by rewrite lookup_insert_eq, lookup_delete_eq.
  - by rewrite lookup_insert_ne, lookup_delete_ne.
Qed.

Lemma default_blank (env : Env) (k x : string) :
  default "" (<[k := ""]> env !! x) = default "" (delete k env !! x).
Proof.
  destruct (decide (k = x)) as [->|Hne].
  - by rewrite lookup_insert_eq, lookup_delete_eq.
  - by rewrite lookup_insert_ne, lookup_delete_ne.
Qed.

Lemma edition_blank (env : Env) (k : string) :
  (if decide (<[k := ""]> env !! "MINECRAFT_EDITION" = Some "bedrock")
   then bedrock else java)
  = (if decide (delete k env !! "MINECRAFT_EDITION" = Some "bedrock")
     then bedrock else java).
Proof.
  destruct (decide (k = "MINECRAFT_EDITION")) as [->|Hne].
  - rewrite lookup_insert_eq, lookup_delete_eq. by repeat case_decide.
  - by rewrite lookup_insert_ne, lookup_delete_ne.
Qed.

(** X1: in both copies of [resolveConfig], setting a variable to the empty
    string gives the same outcome as not setting it, for every variable but
    DEBUG and SUBDOMAINPART (whose reading goes through [stringAsBoolean]
    and through a template string). *)
Theorem X1_blank_is_unset (env : Env) (k : string) :
  k ≠ "DEBUG" → k ≠ "SUBDOMAINPART" →
  Config.resolveConfig JSON_parse stringAsBoolean (<[k := ""]> env)
  = Config.resolveConfig JSON_parse stringAsBoolean (delete k env)
  ∧ ConfigAlt.resolveConfig JSON_parse stringAsBoolean (<[k := ""]> env)
    = ConfigAlt.resolveConfig JSON_parse stringAsBoolean (delete k env).
Proof.
  intros Hdebug Hsub.
  unfold Config.resolveConfig, ConfigAlt.resolveConfig,
    Config.resolveMinecraftEnvVars, ConfigAlt.resolveMinecraftEnvVars.
  rewrite !or_bool_true_r, !or_string_blank, !or_number_blank, !default_blank,
    !edition_blank.
  rewrite !(lookup_insert_ne env k "DEBUG"), !(lookup_delete_ne env k "DEBUG")
    by done.
  rewrite !(lookup_insert_ne env k "SUBDOMAINPART"),
    !(lookup_delete_ne env k "SUBDOMAINPART") by done.
  done.
Qed.

(** X2: [src/unnamed/part_001] builds the default cluster and volume names
    from SUBDOMAINPART, not from SUBDOMAIN_PART: changing SUBDOMAIN_PART
    changes [subdomainPart] but none of the four naming fields, and with
    CLUSTER_NAME, ECS_VOLUME_NAME and SUBDOMAINPART unset the names hold the
    text 'undefined'. *)
Theorem X2_names_ignore_subdomain_part (env : Env) (v : string)
    (cfg cfg' : StackConfig) :
  Config.resolveConfig JSON_parse stringAsBoolean env = Ok cfg →
  Config.resolveConfig JSON_parse stringAsBoolean (<["SUBDOMAIN_PART" := v]> env)
  = Ok cfg' →
  subdomainPart cfg' = v
  ∧ clusterName cfg' = clusterName cfg
  ∧ serviceName cfg' = serviceName cfg
  ∧ serverContainerName cfg' = serverContainerName cfg
  ∧ ecsVolumeName cfg' = ecsVolumeName cfg
  ∧ (env !! "CLUSTER_NAME" = None → env !! "ECS_VOLUME_NAME" = None →
     env !! "SUBDOMAINPART" = None →
     clusterName cfg = Some "minecraft-server-undefined"
     ∧ ecsVolumeName cfg = Some "minecraft-server-undefined-data").
Proof.
  unfold Config.resolveConfig.
  rewrite lookup_insert_eq, !lookup_insert_ne by done.
  destruct (Config.resolveMinecraftEnvVars _ _); simpl; [|done].
  intros [= <-] [= <-]. simpl.
  split; [by destruct v|]. do 4 (split; [done|]).
  by intros -> -> ->.
Qed.

(** X3: the two copies of [resolveConfig] fail in the same environments with
    the same error, and when they return they agree on every field but
    [taskCpu], [minecraftImageEnv] and the four naming fields. *)
Theorem X3_copies_agree (env : Env) :
  (∀ msg, Config.resolveConfig JSON_parse stringAsBoolean env = Throw msg
          ↔ ConfigAlt.resolveConfig JSON_parse stringAsBoolean env = Throw msg)
  ∧ ∀ c1 c2,
      Config.resolveConfig JSON_parse stringAsBoolean env = Ok c1 →
      ConfigAlt.resolveConfig JSON_parse stringAsBoolean env = Ok c2 →
      domainName c1 = domainName c2
      ∧ subdomainPart c1 = subdomainPart c2
      ∧ serverRegion c1 = serverRegion c2
      ∧ minecraftEdition c1 = minecraftEdition c2
      ∧ shutdownMinutes c1 = shutdownMinutes c2
      ∧ startupMinutes c1 = startupMinutes c2
      ∧ useFargateSpot c1 = useFargateSpot c2
      ∧ taskMemory c1 = taskMemory c2
      ∧ vpcId c1 = vpcId c2
      ∧ snsEmailAddress c1 = snsEmailAddress c2
      ∧ twilio c1 = twilio c2
      ∧ debug c1 = debug c2.
Proof.
  unfold Config.resolveConfig, ConfigAlt.resolveConfig,
    Config.resolveMinecraftEnvVars, ConfigAlt.resolveMinecraftEnvVars.
  destruct (JSON_parse _); simpl; split.
  - by split.
  - intros c1 c2 [= <-] [= <-]. repeat split.
  - by split.
  - done.
Qed.

(** X4: [resolveConfig] validates nothing but the JSON text: in both copies
    it returns exactly when [JSON.parse] accepts
    MINECRAFT_IMAGE_ENV_VARS_JSON (the empty text when unset), and the only
    error it throws is the JSON one, whatever TASK_CPU, TASK_MEMORY and the
    other variables hold. *)
Theorem X4_returns_iff_json_parses (env : Env) :
  ((∃ cfg, Config.resolveConfig JSON_parse stringAsBoolean env = Ok cfg)
   ↔ is_Some (JSON_parse (default "" (env !! "MINECRAFT_IMAGE_ENV_VARS_JSON"))))
  ∧ ((∃ cfg, ConfigAlt.resolveConfig JSON_parse stringAsBoolean env = Ok cfg)
     ↔ is_Some (JSON_parse (default "" (env !! "MINECRAFT_IMAGE_ENV_VARS_JSON"))))
  ∧ (∀ msg, Config.resolveConfig JSON_parse stringAsBoolean env = Throw msg
            ∨ ConfigAlt.resolveConfig JSON_parse stringAsBoolean env = Throw msg →
            msg = json_error)
  ∧ (∀ cfg, Config.resolveConfig JSON_parse stringAsBoolean env = Ok cfg →
            taskCpu cfg = match env !! "TASK_CPU" with
                          | Some (String c s) => ToNumber (String c s)
                          | _ => NumLit 8192
                          end).
Proof.
  unfold Config.resolveConfig, ConfigAlt.resolveConfig,
    Config.resolveMinecraftEnvVars, ConfigAlt.resolveMinecraftEnvVars.
  destruct (JSON_parse _) as [v|]; simpl.
  - split; [split; eauto|]. split; [split; eauto|].
    split; [by intros msg [?|?]|].
    intros cfg [= <-]. simpl. by destruct (env !! "TASK_CPU") as [[|??]|].
  - split; [split; [by intros [? ?]|by intros [? ?]]|].
    split; [split; [by intros [? ?]|by intros [? ?]]|].
    split; [by intros msg [[= <-]|[= <-]]|done].
Qed.

Lemma assign_lookup_absent (kvs : list (string * json)) (o : object) (k : string) :
  k ∉ kvs.*1 → assign kvs o !! k = o !! k.
Proof.
  unfold assign. revert o.
  induction kvs as [|[k' v] kvs IH]; intros o Hk; [done|].
  simpl in *. apply not_elem_of_cons in Hk as [Hne Hk].
  rewrite IH by done. by rewrite lookup_insert_ne.
Qed.

Lemma assign_lookup_is_Some (kvs : list (string * json)) (o : object) (k : string) :
  is_Some (o !! k) → is_Some (assign kvs o !! k).
Proof.
  unfold assign. revert o.
  induction kvs as [|[k' v] kvs IH]; intros o Hk; [done|].
  simpl. apply IH. destruct (decide (k' = k)) as [->|Hne].
  - rewrite lookup_insert_eq. eauto.
  - by rewrite lookup_insert_ne.
Qed.

(** X5: a configuration resolved by [src/unnamed/part_001] always has an
    EULA entry in [minecraftImageEnv]; it is 'TRUE' unless the parsed value
    has a property EULA of its own.  The server container of a stack built
    from the configuration receives that entry. *)
Theorem X5_eula_always_present (env : Env) (cfg : StackConfig) :
  Config.resolveConfig JSON_parse stringAsBoolean env = Ok cfg →
  is_Some (minecraftImageEnv cfg !! "EULA")
  ∧ (∀ v, JSON_parse (default "" (env !! "MINECRAFT_IMAGE_ENV_VARS_JSON")) = Some v →
          "EULA" ∉ (own_props v).*1 →
          minecraftImageEnv cfg !! "EULA" = Some (JString "TRUE"))
  ∧ ∀ constants serverConfig docker attr dirname region account,
      containerEnv
        (MinecraftStack constants serverConfig docker attr dirname
           {| env_region := region; env_account := account;
              props_config := cfg |})
        "ServerContainer" "EULA" = minecraftImageEnv cfg !! "EULA".
Proof.
  unfold Config.resolveConfig, Config.resolveMinecraftEnvVars.
  destruct (JSON_parse _) as [v|]; simpl; [|done].
  intros [= <-]. simpl. split; [|split].
  - apply assign_lookup_is_Some. by eexists.
  - intros v' [= <-] Hk. by rewrite assign_lookup_absent.
  - synth.
Qed.

End ConfigCoverage.

(** ** The server stack, continued *)

Lemma append_assoc (a b c : string) : (a ++ b) ++ c = a ++ (b ++ c).
Proof.
  induction a as [|x a IH]; [done|].
  change (String x ((a ++ b) ++ c) = String x (a ++ (b ++ c))).
  by rewrite IH.
Qed.

Lemma wildcard_star_any (s : string) : wildcard "*" s = true.
Proof. induction s as [|d t IH]; [done|exact IH]. Qed.

Lemma wildcard_prefix_star (p s : string) :
  wildcard (p ++ "*") (p ++ s) = true.
Proof.
  induction p as [|c p IH]; [apply wildcard_star_any|].
  change (String c p ++ "*") with (String c (p ++ "*")).
  change (String c p ++ s) with (String c (p ++ s)).
  cbn [wildcard]. destruct (Ascii.eqb c "*") eqn:Hc.
  - apply orb_true_iff; right.
    destruct (p ++ s) as [|d t] eqn:Ht; apply orb_true_iff; left; exact IH.
  - rewrite Ascii.eqb_refl, IH. by rewrite orb_true_r.
Qed.

Lemma statements_allow_no_deny (sts : list PolicyStatement) (rq : Request) :
  forallb is_allow sts = true →
  statements_allow sts rq = existsb (λ st, statement_matches st rq) sts.
Proof.
  intros Hall. unfold statements_allow.
  assert (Hdeny :
    existsb (λ st, negb (is_allow st) && statement_matches st rq) sts = false).
  { induction sts as [|st sts IH]; [done|].
    simpl in *. apply andb_true_iff in Hall as [-> Hall]. by apply IH. }
  rewrite Hdeny, andb_true_r.
  induction sts as [|st sts IH]; [done|].
  simpl in *. apply andb_true_iff in Hall as [Hst Hall].
  rewrite Hst in *. simpl in *. by rewrite IH.
Qed.

(** Evaluates the pattern matches between two literals, and those of a
    string against itself. *)
Ltac eval_wildcards :=
  rewrite ?wildcard_refl;
  repeat match goal with
         | |- context [wildcard ?a ?b] =>
             let v := eval vm_compute in (wildcard a b) in
             lazymatch v with
             | true => change (wildcard a b) with true
             | false => change (wildcard a b) with false
             end
         end;
  cbn [orb andb negb].

Section StackCoverage.
Variable constants : Constants.
Variable getMinecraftServerConfig : MinecraftEdition → MinecraftServerConfig.
Variable isDockerInstalled : bool.
Variable attr : string → string → string.
Variable dirname : string.

Local Abbreviation synthesized :=
  (MinecraftStack constants getMinecraftServerConfig isDockerInstalled attr dirname).

(** The statements that apply to the launcher's role: those of the
    service-control policy. *)
Lemma launcher_statements (props : StackProps) :
  role_statements (synthesized props) "LauncherLambdaRole"
  = [{| sid := Some "AllowAllOnServiceAndTask"; effect := ALLOW;
        actions := ["ecs:*"];
        resources := [attr "FargateService" "serviceArn"; taskArn attr props "*"];
        conditions := [] |};
     {| sid := None; effect := ALLOW;
        actions := ["ec2:DescribeNetworkInterfaces"];
        resources := ["*"];
        conditions := [] |}].
Proof. synth. Qed.

(** The statements that apply to the ECS task role. *)
Lemma task_role_statements (props : StackProps) :
  role_statements (synthesized props) "TaskRole"
  = ([{| sid := Some "AllowReadWriteOnEFS"; effect := ALLOW;
        actions := ["elasticfilesystem:ClientMount";
                    "elasticfilesystem:ClientWrite";
                    "elasticfilesystem:DescribeFileSystems"];
        resources := [attr "FileSystem" "fileSystemArn"];
        conditions :=
          [{| operator := "StringEquals";
              conditionKey := "elasticfilesystem:AccessPointArn";
              conditionValue := attr "AccessPoint" "accessPointArn" |}] |}]
    ++ (if nonempty (snsEmailAddress (props_config props))
        then [{| sid := None; effect := ALLOW;
                 actions := ["sns:Publish"];
                 resources := [attr "ServerSnsTopic" "topicArn"];
                 conditions := [] |}]
        else [])
    ++ role_statements (synthesized props) "LauncherLambdaRole"
    ++ [{| sid := Some "AllowEditRecordSets"; effect := ALLOW;
           actions := ["route53:GetHostedZone";
                       "route53:ChangeResourceRecordSets";
                       "route53:ListResourceRecordSets"];
           resources :=
             ["arn:aws:route53:::hostedzone/" +:+
              attr "Route53HostedZoneIdReader" "Parameter.Value"];
           conditions := [] |}])%list.
Proof. synth. Qed.

(** No other id is given any statement. *)
Lemma other_statements (props : StackProps) (role : string) :
  role ≠ "TaskRole" → role ≠ "LauncherLambdaRole" →
  role_statements (synthesized props) role = [].
Proof.
  intros H1 H2. unfold role_statements. explicit_constructs.
  all: cbn -[String.eqb].
  all: destruct (String.eqb_spec "TaskRole" role) as [<-|_]; [done|].
  all: destruct (String.eqb_spec "LauncherLambdaRole" role) as [<-|_]; [done|].
  all: by destruct (String.eqb_spec "EC2Role" role) as [<-|_].
Qed.

Lemma all_allow (props : StackProps) (role : string) :
  forallb is_allow (role_statements (synthesized props) role) = true.
Proof.
  destruct (decide (role = "TaskRole")) as [->|H1].
  { rewrite task_role_statements, launcher_statements.
    by destruct (nonempty _). }
  destruct (decide (role = "LauncherLambdaRole")) as [->|H2].
  { by rewrite launcher_statements. }
  by rewrite other_statements.
Qed.

Lemma taskArn_prefix (props : StackProps) (task : string) :
  taskArn attr props task = taskArn attr props "" ++ task.
Proof. unfold taskArn. by rewrite !append_assoc. Qed.

(** X6: both the ECS task role and the launcher's role may perform every
    [ecs:] action on the Fargate service and on every task of the cluster,
    which is what scaling the service up and down needs. *)
Theorem X6_both_roles_control_the_service (props : StackProps)
    (role action task : string) (ctx : list (string * string)) :
  role = "TaskRole" ∨ role = "LauncherLambdaRole" →
  role_allows (synthesized props) role
    {| reqAction := "ecs:" ++ action;
       reqResource := attr "FargateService" "serviceArn";
       reqContext := ctx |} = true
  ∧ role_allows (synthesized props) role
      {| reqAction := "ecs:" ++ action;
         reqResource := taskArn attr props task;
         reqContext := ctx |} = true.
Proof.
  intros Hrole. unfold role_allows.
  rewrite !statements_allow_no_deny by apply all_allow.
  assert (Haction : wildcard "ecs:*" ("ecs:" ++ action) = true)
    by apply (wildcard_prefix_star "ecs:" action).
  assert (Htask : wildcard (taskArn attr props "*") (taskArn attr props task) = true).
  { rewrite (taskArn_prefix props "*"), (taskArn_prefix props task).
    apply wildcard_prefix_star. }
  assert (Hlauncher : ∀ resource,
    resource = attr "FargateService" "serviceArn"
    ∨ resource = taskArn attr props task →
    existsb (λ st, statement_matches st
               {| reqAction := "ecs:" ++ action; reqResource := resource;
                  reqContext := ctx |})
      (role_statements (synthesized props) "LauncherLambdaRole") = true).
  { intros resource Hres. rewrite launcher_statements.
    unfold statement_matches.
    cbn [existsb forallb actions resources conditions reqAction reqResource].
    rewrite Haction.
    destruct Hres as [-> | ->]; [rewrite wildcard_refl | rewrite Htask];
      by rewrite ?orb_true_r. }
  destruct Hrole as [-> | ->].
  - rewrite task_role_statements, !existsb_app, !Hlauncher by eauto.
    by rewrite !orb_true_r.
  - rewrite !Hlauncher by eauto. done.
Qed.

(** X7: the policy statements the stack itself declares (its policies and
    the grant on the topic) reach the ECS task role and the launcher's role
    only; whatever these statements allow the launcher's role they also
    allow the task role; the EC2 role gets none of them, its only rights
    being those of the AWS managed policy AmazonS3ReadOnlyAccess, which the
    stack attaches by name. *)
Theorem X7_launcher_within_task_role (props : StackProps) (role : string)
    (rq : Request) :
  (role_statements (synthesized props) role ≠ [] →
   role = "TaskRole" ∨ role = "LauncherLambdaRole")
  ∧ (role_allows (synthesized props) "LauncherLambdaRole" rq = true →
     role_allows (synthesized props) "TaskRole" rq = true)
  ∧ managed (synthesized props) = [("EC2Role", ["AmazonS3ReadOnlyAccess"])].
Proof.
  split; [|split].
  - destruct (decide (role = "TaskRole")) as [->|H1]; [by left|].
    destruct (decide (role = "LauncherLambdaRole")) as [->|H2]; [by right|].
    by rewrite other_statements.
  - unfold role_allows.
    rewrite !statements_allow_no_deny by apply all_allow.
    rewrite task_role_statements, !existsb_app. intros ->.
    by rewrite !orb_true_r.
  - synth.
Qed.

(** X8: the right to publish to the notification topic goes with the e-mail
    address: the task role may publish to the topic exactly when
    [snsEmailAddress] is non-empty, and no other role ever may. *)
Theorem X8_publish_iff_address (props : StackProps) (role : string)
    (ctx : list (string * string)) :
  role_allows (synthesized props) role
    {| reqAction := "sns:Publish";
       reqResource := attr "ServerSnsTopic" "topicArn";
       reqContext := ctx |} = true
  ↔ role = "TaskRole" ∧ nonempty (snsEmailAddress (props_config props)) = true.
Proof.
  unfold role_allows. rewrite statements_allow_no_deny by apply all_allow.
  assert (Hlauncher :
    existsb (λ st, statement_matches st
               {| reqAction := "sns:Publish";
                  reqResource := attr "ServerSnsTopic" "topicArn";
                  reqContext := ctx |})
      (role_statements (synthesized props) "LauncherLambdaRole") = false).
  { rewrite launcher_statements. unfold statement_matches.
    cbn [existsb forallb actions resources conditions reqAction reqResource].
    by eval_wildcards. }
  destruct (decide (role = "TaskRole")) as [->|H1].
  - rewrite task_role_statements, !existsb_app, Hlauncher.
    unfold statement_matches.
    destruct (nonempty _);
      cbn [existsb forallb actions resources conditions reqAction reqResource];
      eval_wildcards; split; try done. by intros [_ ?].
  - destruct (decide (role = "LauncherLambdaRole")) as [->|H2].
    + rewrite Hlauncher. split; [done|]. by intros [? _].
    + rewrite other_statements by done. split; [done|]. by intros [? _].
Qed.

(** X9: the task role's access to the file system is tied to the access
    point: a mount, write or describe request on the file system is allowed
    exactly when the request's access-point ARN is that of the stack's
    access point, so a request without one is refused. *)
Theorem X9_file_system_through_access_point (props : StackProps)
    (action : string) (ctx : list (string * string)) :
  action ∈ ["elasticfilesystem:ClientMount"; "elasticfilesystem:ClientWrite";
            "elasticfilesystem:DescribeFileSystems"] →
  role_allows (synthesized props) "TaskRole"
    {| reqAction := action;
       reqResource := attr "FileSystem" "fileSystemArn";
       reqContext := ctx |}
  = condition_holds ctx
      {| operator := "StringEquals";
         conditionKey := "elasticfilesystem:AccessPointArn";
         conditionValue := attr "AccessPoint" "accessPointArn" |}
  ∧ role_allows (synthesized props) "TaskRole"
      {| reqAction := action;
         reqResource := attr "FileSystem" "fileSystemArn";
         reqContext := [] |} = false.
Proof.
  intros Haction. unfold role_allows.
  rewrite !statements_allow_no_deny by apply all_allow.
  rewrite task_role_statements, launcher_statements, !existsb_app.
  unfold statement_matches.
  repeat (apply elem_of_cons in Haction as [->|Haction]);
    [| | |by apply elem_of_nil in Haction].
  all: destruct (nonempty _).
  all: cbn [existsb forallb actions resources conditions reqAction reqResource
              reqContext].
  all: eval_wildcards.
  all: split; [|done].
  all: by destruct (condition_holds _ _).
Qed.

(** X10: no two children of the server stack share a construct id, so a
    reference by id names one construct. *)
Theorem X10_construct_ids_unique (props : StackProps) :
  NoDup (constructs (synthesized props)).*1.
Proof.
  explicit_constructs.
  all: by apply (bool_decide_unpack _); vm_compute.
Qed.

(** X11: every construct that a child of the server stack refers to (VPC,
    file system, role, cluster, task definition, security group, topic,
    peer of a connection rule) is itself a child of the stack, of the kind
    the reference needs. *)
Theorem X11_references_resolve (props : StackProps) :
  references_resolve (synthesized props) = true.
Proof. synth. Qed.

(** X12: every volume a container of the stack mounts is a volume of its
    task definition: the server container mounts the data volume the task
    definition declares, under the same name. *)
Theorem X12_mounted_volumes_declared (props : StackProps) :
  mounts_declared (synthesized props) = true
  ∧ (λ d, sourceVolume <$> mountPoints d) <$> containers (synthesized props)
    = [["minecraft-server-" ++ subdomainPart (props_config props) ++ "-data"]; []].
Proof.
  split; [|synth].
  unfold mounts_declared, containers, mountable, fargateTaskDefinition.
  explicit_constructs.
  all: cbn.
  all: by rewrite String.eqb_refl.
Qed.

(** The stack reads none of the four naming fields. *)
Lemma stack_ignores_names (region : string) (account : option string)
    (cfg : StackConfig) (n1 n2 n3 n4 : option string) :
  synthesized {| env_region := region; env_account := account;
                 props_config := with_names cfg n1 n2 n3 n4 |}
  = synthesized {| env_region := region; env_account := account;
                   props_config := cfg |}.
Proof.
  unfold MinecraftStack, constructor. cbn [props_config with_names snsEmailAddress].
  destruct (nonempty (snsEmailAddress cfg)); vm_compute; reflexivity.
Qed.

(** X13: the watchdog is told the names of the cluster and the service the
    stack declares, the server name made of subdomain and domain, and the
    hosted zone id that the stack reads, like the launcher's role ARN, from
    the parameter store of the domain stack's region, whatever the server's
    region. *)
Theorem X13_watchdog_wiring (props : StackProps) :
  (λ c, Some (JString (cl_clusterName c))) <$> clusters (synthesized props)
  = [containerEnv (synthesized props) "WatchDogContainer" "CLUSTER"]
  ∧ (λ s, Some (JString (svc_serviceName s))) <$> services (synthesized props)
    = [containerEnv (synthesized props) "WatchDogContainer" "SERVICE"]
  ∧ containerEnv (synthesized props) "WatchDogContainer" "SERVERNAME"
    = Some (JString (subdomainPart (props_config props) ++ "." ++
                     domainName (props_config props)))
  ∧ containerEnv (synthesized props) "WatchDogContainer" "DNSZONE"
    = Some (JString (attr "Route53HostedZoneIdReader" "Parameter.Value"))
  ∧ readers (synthesized props)
    = [{| parameterName :=
            "MinecraftHostedZoneID-" ++ subdomainPart (props_config props);
          reader_region := DOMAIN_STACK_REGION constants |};
       {| parameterName :=
            "LauncherLambdaRoleArn-" ++ subdomainPart (props_config props);
          reader_region := DOMAIN_STACK_REGION constants |}].
Proof. synth; repeat split. Qed.

End StackCoverage.

Section NamingCoverage.
Variable JSON_parse : string → option json.
Variable stringAsBoolean : option string → bool.

(** X14: the four naming variables of [src/unnamed/part_001] have no effect
    on the server stack: changing CLUSTER_NAME, SERVICE_NAME,
    SERVER_CONTAINER_NAME or ECS_VOLUME_NAME leaves the synthesized stack the
    same, its cluster still named after [subdomainPart]. *)
Theorem X14_naming_variables_unused (env : Env) (k v : string)
    (cfg cfg' : StackConfig) :
  k ∈ ["CLUSTER_NAME"; "SERVICE_NAME"; "SERVER_CONTAINER_NAME"; "ECS_VOLUME_NAME"] →
  Config.resolveConfig JSON_parse stringAsBoolean env = Ok cfg →
  Config.resolveConfig JSON_parse stringAsBoolean (<[k := v]> env) = Ok cfg' →
  ∀ constants serverConfig docker attr dirname region account,
    MinecraftStack constants serverConfig docker attr dirname
      {| env_region := region; env_account := account; props_config := cfg' |}
    = MinecraftStack constants serverConfig docker attr dirname
        {| env_region := region; env_account := account; props_config := cfg |}
    ∧ cl_clusterName
        <$> clusters (MinecraftStack constants serverConfig docker attr dirname
                        {| env_region := region; env_account := account;
                           props_config := cfg' |})
      = ["minecraft-server-" ++ subdomainPart cfg].
Proof.
  intros Hk Hcfg Hcfg'.
  assert (Hnames : ∃ n1 n2 n3 n4, cfg' = with_names cfg n1 n2 n3 n4).
  { revert Hcfg Hcfg'. unfold Config.resolveConfig.
    repeat (apply elem_of_cons in Hk as [->|Hk]);
      [| | | |by apply elem_of_nil in Hk].
    all: rewrite ?lookup_insert_eq, !lookup_insert_ne by done.
    all: destruct (Config.resolveMinecraftEnvVars _ _); simpl; [|done].
    all: intros [= <-] [= <-]; by do 4 eexists. }
  destruct Hnames as (n1 & n2 & n3 & n4 & ->). intros.
  rewrite stack_ignores_names. split; [done|]. synth.
Qed.

End NamingCoverage.

(** ** Configuration, stack and entrypoint together *)

Section ComposedCoverage.
Variable JSON_parse : string → option json.
Variable stringAsBoolean : option string → bool.
Variable constants : Constants.
Variable getMinecraftServerConfig : MinecraftEdition → MinecraftServerConfig.
Variable isDockerInstalled : bool.
Variable attr : string → string → string.
Variable dirname : string.
Variable newDomainStack : StackProps → result unit.
Variable libraryError : StackProps → option string.

Local Abbreviation synthesized :=
  (MinecraftStack constants getMinecraftServerConfig isDockerInstalled attr dirname).

(** More fields of a resolved configuration that both copies compute alike. *)
Lemma resolved_edition_debug (env : Env) (cfg : StackConfig) :
  resolved JSON_parse stringAsBoolean env cfg →
  debug cfg = stringAsBoolean (env !! "DEBUG")
  ∧ minecraftEdition cfg
    = if decide (env !! "MINECRAFT_EDITION" = Some "bedrock")
      then bedrock else java.
Proof.
  unfold resolved, Config.resolveConfig, ConfigAlt.resolveConfig.
  intros [H|H]; revert H.
  - destruct (Config.resolveMinecraftEnvVars _ _); simpl; [|done].
    intros [= <-]. simpl. split; [|done]. by destruct (stringAsBoolean _).
  - destruct (ConfigAlt.resolveMinecraftEnvVars _ _); simpl; [|done].
    intros [= <-]. simpl. split; [|done]. by destruct (stringAsBoolean _).
Qed.

Lemma log_drivers_of_stack (props : StackProps) :
  logDrivers (synthesized props)
  = if debug (props_config props)
    then [Some {| logRetention := THREE_DAYS;
                  streamPrefix := "minecraft-server" |};
          Some {| logRetention := THREE_DAYS;
                  streamPrefix := WATCHDOG_SERVER_CONTAINER_NAME constants |}]
    else [None; None].
Proof.
  destruct props as [r a [? ? ? ? ? ? ? ? ? ? ? ? ? ? ? ? ? dbg]].
  unfold logDrivers, containers. destruct dbg; synth.
Qed.


(** X16: unlike [useFargateSpot], [debug] follows its variable: in a stack
    built from a resolved configuration, both containers get the log driver
    exactly when [stringAsBoolean] accepts DEBUG. *)
Theorem X16_logging_follows_debug (env : Env) (cfg : StackConfig)
    (region : string) (account : option string) :
  resolved JSON_parse stringAsBoolean env cfg →
  debug cfg = stringAsBoolean (env !! "DEBUG")
  ∧ logDrivers (synthesized {| env_region := region; env_account := account;
                               props_config := cfg |})
    = if stringAsBoolean (env !! "DEBUG")
      then [Some {| logRetention := THREE_DAYS;
                    streamPrefix := "minecraft-server" |};
            Some {| logRetention := THREE_DAYS;
                    streamPrefix := WATCHDOG_SERVER_CONTAINER_NAME constants |}]
      else [None; None].
Proof.
  intros Hcfg.
  destruct (resolved_edition_debug env cfg Hcfg) as [<- _].
  split; [done|]. apply log_drivers_of_stack.
Qed.

(** X17: the edition decides the server container and the opening of the
    security group together: MINECRAFT_EDITION selects bedrock only when it
    is exactly 'bedrock', and the image, the port mapping (host port equal
    to container port) and the ingress rule of the service's security group
    all come from [getMinecraftServerConfig] of that edition. *)
Theorem X17_edition_decides_ports (env : Env) (cfg : StackConfig)
    (region : string) (account : option string) :
  resolved JSON_parse stringAsBoolean env cfg →
  (λ d, (cd_image d, portMappings d))
    <$> container (synthesized {| env_region := region; env_account := account;
                                  props_config := cfg |}) "ServerContainer"
  = Some (FromRegistry
            (image (getMinecraftServerConfig
                      (if decide (env !! "MINECRAFT_EDITION" = Some "bedrock")
                       then bedrock else java))),
          [{| containerPort :=
                port (getMinecraftServerConfig
                        (if decide (env !! "MINECRAFT_EDITION" = Some "bedrock")
                         then bedrock else java));
              hostPort :=
                port (getMinecraftServerConfig
                        (if decide (env !! "MINECRAFT_EDITION" = Some "bedrock")
                         then bedrock else java));
              pm_protocol :=
                protocol (getMinecraftServerConfig
                            (if decide (env !! "MINECRAFT_EDITION" = Some "bedrock")
                             then bedrock else java)) |}])
  ∧ ingressRules
      <$> securityGroup (synthesized {| env_region := region;
                                        env_account := account;
                                        props_config := cfg |})
            "ServiceSecurityGroup"
    = Some [{| rule_peer := anyIpv4;
               rule_port :=
                 ingressRulePort
                   (getMinecraftServerConfig
                      (if decide (env !! "MINECRAFT_EDITION" = Some "bedrock")
                       then bedrock else java));
               rule_description := None |}].
Proof.
  intros Hcfg.
  destruct (resolved_edition_debug env cfg Hcfg) as [_ <-].
  split; synth.
Qed.

End ComposedCoverage.

(** ** Witnesses, continued *)

Lemma X1_witness :
  "VPC_ID" ≠ "DEBUG" ∧ "VPC_ID" ≠ "SUBDOMAINPART"
  ∧ Config.resolveConfig sample_parse sample_stringAsBoolean
      (<["VPC_ID" := ""]> sample_env)
    = Config.resolveConfig sample_parse sample_stringAsBoolean
        (delete "VPC_ID" sample_env)
  ∧ ConfigAlt.resolveConfig sample_parse sample_stringAsBoolean
      (<["VPC_ID" := ""]> sample_env)
    = ConfigAlt.resolveConfig sample_parse sample_stringAsBoolean
        (delete "VPC_ID" sample_env).
Proof.
  assert (H1 : "VPC_ID" ≠ "DEBUG") by discriminate.
  assert (H2 : "VPC_ID" ≠ "SUBDOMAINPART") by discriminate.
  split; [exact H1|]. split; [exact H2|].
  exact (X1_blank_is_unset sample_parse sample_stringAsBoolean sample_env
           "VPC_ID" H1 H2).
Defined.

Lemma X2_witness :
  sample_resolveConfig sample_env = Ok sample_config
  ∧ sample_resolveConfig (<["SUBDOMAIN_PART" := "play"]> sample_env)
    = Ok sample_config_play
  ∧ subdomainPart sample_config_play = "play"
  ∧ clusterName sample_config_play = clusterName sample_config
  ∧ ecsVolumeName sample_config_play = Some "minecraft-server-undefined-data".
Proof.
  assert (H1 : sample_resolveConfig sample_env = Ok sample_config)
    by (vm_compute; reflexivity).
  assert (H2 : sample_resolveConfig (<["SUBDOMAIN_PART" := "play"]> sample_env)
               = Ok sample_config_play) by (vm_compute; reflexivity).
  destruct (X2_names_ignore_subdomain_part sample_parse sample_stringAsBoolean
              sample_env "play" sample_config sample_config_play H1 H2)
    as (Hsub & Hcluster & _ & _ & Hvolume & Hundefined).
  split; [exact H1|]. split; [exact H2|]. split; [exact Hsub|].
  split; [exact Hcluster|]. rewrite Hvolume.
  apply Hundefined; reflexivity.
Defined.

Lemma X5_witness :
  sample_resolveConfig sample_env = Ok sample_config
  ∧ is_Some (minecraftImageEnv sample_config !! "EULA")
  ∧ containerEnv sample_stack "ServerContainer" "EULA"
    = minecraftImageEnv sample_config !! "EULA".
Proof.
  assert (H : sample_resolveConfig sample_env = Ok sample_config)
    by (vm_compute; reflexivity).
  destruct (X5_eula_always_present sample_parse sample_stringAsBoolean
              sample_env sample_config H) as (Hsome & _ & Hstack).
  split; [exact H|]. split; [exact Hsome|].
  exact (Hstack sample_constants sample_serverConfig false sample_attr
           "/cdk/lib" "eu-west-1" None).
Defined.

Lemma X6_witness :
  ("LauncherLambdaRole" = "TaskRole" ∨ "LauncherLambdaRole" = "LauncherLambdaRole")
  ∧ role_allows sample_stack "LauncherLambdaRole"
      {| reqAction := "ecs:" ++ "UpdateService";
         reqResource := sample_attr "FargateService" "serviceArn";
         reqContext := [] |} = true
  ∧ role_allows sample_stack "LauncherLambdaRole"
      {| reqAction := "ecs:" ++ "UpdateService";
         reqResource := taskArn sample_attr sample_props "0123";
         reqContext := [] |} = true.
Proof.
  assert (H : "LauncherLambdaRole" = "TaskRole"
              ∨ "LauncherLambdaRole" = "LauncherLambdaRole") by (right; reflexivity).
  split; [exact H|].
  exact (X6_both_roles_control_the_service sample_constants sample_serverConfig
           false sample_attr "/cdk/lib" sample_props "LauncherLambdaRole"
           "UpdateService" "0123" [] H).
Defined.

Lemma X9_witness :
  "elasticfilesystem:ClientWrite"
    ∈ ["elasticfilesystem:ClientMount"; "elasticfilesystem:ClientWrite";
       "elasticfilesystem:DescribeFileSystems"]
  ∧ role_allows sample_stack "TaskRole"
      {| reqAction := "elasticfilesystem:ClientWrite";
         reqResource := sample_attr "FileSystem" "fileSystemArn";
         reqContext :=
           [("elasticfilesystem:AccessPointArn",
             sample_attr "AccessPoint" "accessPointArn")] |} = true
  ∧ role_allows sample_stack "TaskRole"
      {| reqAction := "elasticfilesystem:ClientWrite";
         reqResource := sample_attr "FileSystem" "fileSystemArn";
         reqContext := [] |} = false.
Proof.
  assert (H : "elasticfilesystem:ClientWrite"
                ∈ ["elasticfilesystem:ClientMount"; "elasticfilesystem:ClientWrite";
                   "elasticfilesystem:DescribeFileSystems"])
    by (apply list_elem_of_further, list_elem_of_here).
  split; [exact H|].
  destruct (X9_file_system_through_access_point sample_constants
              sample_serverConfig false sample_attr "/cdk/lib" sample_props
              "elasticfilesystem:ClientWrite"
              [("elasticfilesystem:AccessPointArn",
                sample_attr "AccessPoint" "accessPointArn")] H) as [Hok Hno].
  split; [|exact Hno]. unfold sample_stack. rewrite Hok. reflexivity.
Defined.

Lemma X14_witness :
  "CLUSTER_NAME"
    ∈ ["CLUSTER_NAME"; "SERVICE_NAME"; "SERVER_CONTAINER_NAME"; "ECS_VOLUME_NAME"]
  ∧ sample_resolveConfig sample_env = Ok sample_config
  ∧ sample_resolveConfig (<["CLUSTER_NAME" := "my-cluster"]> sample_env)
    = Ok sample_config_named
  ∧ clusterName sample_config_named = Some "my-cluster"
  ∧ MinecraftStack sample_constants sample_serverConfig false sample_attr
      "/cdk/lib"
      {| env_region := "eu-west-1"; env_account := None;
         props_config := sample_config_named |}
    = sample_stack
  ∧ cl_clusterName
      <$> clusters (MinecraftStack sample_constants sample_serverConfig false
                      sample_attr "/cdk/lib"
                      {| env_region := "eu-west-1"; env_account := None;
                         props_config := sample_config_named |})
    = ["minecraft-server-mc"].
Proof.
  assert (Hk : "CLUSTER_NAME"
                 ∈ ["CLUSTER_NAME"; "SERVICE_NAME"; "SERVER_CONTAINER_NAME";
                    "ECS_VOLUME_NAME"]) by apply list_elem_of_here.
  assert (H1 : sample_resolveConfig sample_env = Ok sample_config)
    by (vm_compute; reflexivity).
  assert (H2 : sample_resolveConfig (<["CLUSTER_NAME" := "my-cluster"]> sample_env)
               = Ok sample_config_named) by (vm_compute; reflexivity).
  destruct (X14_naming_variables_unused sample_parse sample_stringAsBoolean
              sample_env "CLUSTER_NAME" "my-cluster" sample_config
              sample_config_named Hk H1 H2 sample_constants sample_serverConfig
              false sample_attr "/cdk/lib" "eu-west-1" None) as [Hsame Hname].
  split; [exact Hk|]. split; [exact H1|]. split; [exact H2|].
  split; [vm_compute; reflexivity|]. split; [exact Hsame|exact Hname].
Defined.


Lemma X16_witness :
  resolved sample_parse sample_stringAsBoolean sample_env sample_config
  ∧ debug sample_config = sample_stringAsBoolean (sample_env !! "DEBUG")
  ∧ logDrivers sample_stack = [None; None].
Proof.
  assert (H : resolved sample_parse sample_stringAsBoolean sample_env sample_config)
    by (left; vm_compute; reflexivity).
  split; [exact H|].
  exact (X16_logging_follows_debug sample_parse sample_stringAsBoolean
           sample_constants sample_serverConfig false sample_attr "/cdk/lib"
           sample_env sample_config "eu-west-1" None H).
Defined.

Lemma X17_witness :
  resolved sample_parse sample_stringAsBoolean sample_env sample_config
  ∧ (λ d, (cd_image d, portMappings d)) <$> container sample_stack "ServerContainer"
    = Some (FromRegistry "itzg/minecraft-server",
            [{| containerPort := NumLit 25565; hostPort := NumLit 25565;
                pm_protocol := TCP |}])
  ∧ ingressRules <$> securityGroup sample_stack "ServiceSecurityGroup"
    = Some [{| rule_peer := anyIpv4; rule_port := PortTcp 25565;
               rule_description := None |}].
Proof.
  assert (H : resolved sample_parse sample_stringAsBoolean sample_env sample_config)
    by (left; vm_compute; reflexivity).
  split; [exact H|].
  exact (X17_edition_decides_ports sample_parse sample_stringAsBoolean
           sample_constants sample_serverConfig false sample_attr "/cdk/lib"
           sample_env sample_config "eu-west-1" None H).
Defined.
